(** * Kanoon Sathi: the retrieval-augmented query pipeline

    A shallow embedding of the query path of the legal assistant:
    the document-type classifier ([utils/ai.ts]), the four corpus
    retrievers ([tools/retriever.ts]), the chat store
    ([services/chatService.ts]) and the flow that glues them together
    ([index.ts], with its first version), followed by the properties
    stated about them. *)

From Stdlib Require Import String Ascii List ZArith QArith Bool Lia.
From stdpp Require Import base gmap strings list.

Local Open Scope string_scope.

(** ** JavaScript strings and values

    A string is a sequence of code units.  The model keeps the code
    units below 256 (Latin-1), on which [toLowerCase], [trim] and
    [includes] are defined exactly as ECMAScript defines them. *)
Module Js.

(** ECMAScript [WhiteSpace] and [LineTerminator] code units below 256:
    TAB, LF, VT, FF, CR, SP and NBSP. *)
Definition isWhiteSpace (c : ascii) : bool :=
  let n := N_of_ascii c in
  ((9 <=? n) && (n <=? 13) || (n =? 32) || (n =? 160))%N.

(** Lower-case mapping of one code unit: [A-Z] and the Latin-1 capitals
    (U+00C0..U+00DE without the multiplication sign U+00D7) move up by 32. *)
Definition lowerUnit (c : ascii) : ascii :=
  let n := N_of_ascii c in
  if ((65 <=? n) && (n <=? 90)
      || (192 <=? n) && (n <=? 222) && negb (n =? 215))%N
  then ascii_of_N (n + 32) else c.

Fixpoint toLowerCase (s : string) : string :=
  match s with
  | EmptyString => EmptyString
  | String c r => String (lowerUnit c) (toLowerCase r)
  end.

Fixpoint trimStart (s : string) : string :=
  match s with
  | EmptyString => EmptyString
  | String c r => if isWhiteSpace c then trimStart r else s
  end.

Fixpoint trimEnd (s : string) : string :=
  match s with
  | EmptyString => EmptyString
  | String c r =>
      match trimEnd r with
      | EmptyString => if isWhiteSpace c then EmptyString else String c EmptyString
      | r' => String c r'
      end
  end.

Definition trim (s : string) : string := trimStart (trimEnd s).

(** [startsWith hay needle]: [needle] is a prefix of [hay]. *)
Fixpoint startsWith (hay needle : string) : bool :=
  match needle, hay with
  | EmptyString, _ => true
  | String _ _, EmptyString => false
  | String a n', String b h' => Ascii.eqb a b && startsWith h' n'
  end.

(** [hay.includes(needle)]: [needle] occurs somewhere in [hay]. *)
Fixpoint includes (hay needle : string) : bool :=
  startsWith hay needle
  || match hay with
     | EmptyString => false
     | String _ h' => includes h' needle
     end.

(** Truthiness of a string: every string but the empty one. *)
Definition truthy (s : string) : bool := negb (String.eqb s "").

(** [a || b] on strings. *)
Definition or_else (a b : string) : string := if truthy a then a else b.

(** Truthiness and [||] on a possibly undefined string. *)
Definition truthy_opt (o : option string) : bool :=
  match o with Some s => truthy s | None => false end.

Definition opt_or_else (o : option string) (b : string) : string :=
  match o with Some s => or_else s b | None => b end.

(** [parts.join(sep)]. *)
Fixpoint join (sep : string) (parts : list string) : string :=
  match parts with
  | [] => ""
  | [p] => p
  | p :: rest => p +:+ sep +:+ join sep rest
  end.

(** JSON-like values held in passage metadata and in filter options.
    Numbers are finite.  [Obj] is an object or array that comes from
    outside and is known by its identity only, as [===] compares it;
    [Object] is an object the code itself builds with an object
    literal, known by its properties. *)
#[local] Unset Elimination Schemes.
Inductive Value : Type :=
  | Undefined
  | Null
  | Bool (b : bool)
  | Num (q : Q)
  | Str (s : string)
  | Obj (ref : nat)
  | Object (fields : gmap string Value).
#[local] Set Elimination Schemes.

(** Strict equality [a === b] of a value read from a passage with a
    value of the options.  An object literal evaluated by the code is
    a new object: it is identical to no value that was made elsewhere. *)
Definition strictEq (a b : Value) : bool :=
  match a, b with
  | Undefined, Undefined => true
  | Null, Null => true
  | Bool x, Bool y => Bool.eqb x y
  | Num x, Num y => Qeq_bool x y
  | Str x, Str y => String.eqb x y
  | Obj x, Obj y => Nat.eqb x y
  | _, _ => false
  end.

(** Truthiness of a possibly absent number: absent and 0 are falsy. *)
Definition truthy_num (o : option Q) : bool :=
  match o with Some q => negb (Qeq_bool q 0) | None => false end.

(** [n || d] on a possibly absent number. *)
Definition num_or_else (o : option Q) (d : Q) : Q :=
  match o with Some q => if Qeq_bool q 0 then d else q | None => d end.

(** [obj?.[key]]: a missing property reads as [undefined]. *)
Definition prop (obj : gmap string Value) (key : string) : Value :=
  default Undefined (obj !! key).

End Js.

(** ** The document-type classifier ([utils/ai.ts]) *)
Module Classifier.
Import Js.

(** What [detectDocumentType] does with the text of the model's
    response ([None] stands for an absent [response.text]). *)
Definition documentTypeOfResponse (text : option string) : string :=
  let documentType :=
    opt_or_else (option_map (fun t => trim (toLowerCase t)) text) "constitution" in
  if includes documentType "criminal" && includes documentType "procedure"
  then "criminal_procedure"
  else if includes documentType "criminal" then "criminal"
  else if includes documentType "civil" then "civil"
  else if includes documentType "constitution" then "constitution"
  else "none".

End Classifier.

(** ** Data shared by the pipeline stages *)

(** Result of an awaited call: a value, or a thrown error. *)
Inductive Outcome (A : Type) : Type :=
  | Returns (a : A)
  | Throws (error : string).
Arguments Returns {A} a.
Arguments Throws {A} error.

(** A retrieved passage.  [Document.fromText(text, metadata)] makes
    the passage with that text whose [metadata] is its second
    argument, as it is given. *)
Record Document : Type := fromText {
  doc_text : string;
  doc_metadata : gmap string Js.Value
}.

Inductive Role : Type := user | model | system.

Record ChatMessagePart : Type := { text : string }.

Record ChatInterface : Type := {
  role : Role;
  content : list ChatMessagePart
}.

(** The three instruction texts handed to the model.  Their wording
    plays no part in the control flow, so they are kept by name. *)
Inductive Instruction : Type :=
  | classifierPrompt
  | grammarPrompt (targetLanguage : string) (preserveStyle : bool)
  | assistantPrompt.

Inductive Tool : Type :=
  | getConstitutionTableOfContents
  | getConstitutionPart
  | getConstitutionArticle.

(** The argument of [ai.generate]. *)
Record GenerateRequest : Type := {
  req_system : Instruction;
  req_prompt : string;
  req_docs : list Document;
  req_tools : list Tool;
  req_messages : list ChatInterface
}.

(** The embedding tables searched by the retrievers. *)
Inductive Table : Type :=
  | documents
  | criminal_code
  | civil_code
  | criminal_procedure.

(** One row of a similarity search.  [page_number] is selected from the
    three code tables only; the constitution retriever never reads it. *)
Record Row : Type := {
  row_content : string;
  row_metadata : gmap string Js.Value;
  page_number : Z;
  similarity_score : Q
}.

(** The services the pipeline awaits.  [generate] answers with the
    [text] of the model's response, [searchDb] stands for the embedding
    call followed by the nearest-neighbour query of one table,
    [dbFault n] tells whether the [n]-th query sent to the chat
    database fails, and [newId n] is the identifier the database gives a
    row inserted by that query. *)
Record Services : Type := {
  generate : GenerateRequest -> Outcome (option string);
  searchDb : Table -> string -> Q -> Outcome (list Row);
  dbFault : nat -> bool;
  newId : nat -> string
}.

(** ** The corpus retrievers ([tools/retriever.ts]) *)
Module Retriever.
Import Js.

(** [allRetrieversOptionsSchema]: every field is optional. *)
Record Options : Type := {
  k : option Q;
  similarityThreshold : option Q;
  metadataFilter : option (gmap string Value);
  pageFilter : option Q
}.

(** What the schema asks of the options beyond their types:
    [similarityThreshold] is [z.number().min(0).max(1)].  The options
    as a whole are optional. *)
Definition configSchema (options : option Options) : bool :=
  match options with
  | Some given =>
      match similarityThreshold given with
      | Some t => Qle_bool 0 t && Qle_bool t 1
      | None => true
      end
  | None => true
  end.

(** [value >= t] for a number [t]: [null] and the booleans are read as
    numbers, [undefined] and objects compare false.  The numeric
    reading of a string is left out (it compares false here): the
    retrievers apply [>=] to a property of the metadata of a passage
    they have just converted, and no such property is a string. *)
Definition geNumber (value : Value) (t : Q) : bool :=
  match value with
  | Num q => Qle_bool t q
  | Null => Qle_bool t 0
  | Bool b => Qle_bool t (if b then 1 else 0)
  | Undefined | Str _ | Obj _ | Object _ => false
  end.

(** [Object.entries(filter).every(([key, value]) => metadata?.[key] === value)]. *)
Definition matchesAll (filter : gmap string Value) (metadata : gmap string Value) : bool :=
  forallb (fun entry => strictEq (prop metadata entry.1) entry.2) (map_to_list filter).

(** The documents a constitution search result is converted to.  The
    argument handed to [fromText] as the metadata is the object
    [{ metadata: { ...row.metadata, similarityScore } }]: the score
    and the stored metadata of the row are the properties of the object
    under its one property [metadata]. *)
Definition vectorDbDocuments (results : list Row) : list Document :=
  map (fun row =>
         fromText (row_content row)
           {[ "metadata" :=
                Object (<["similarityScore" := Num (similarity_score row)]>
                          (row_metadata row)) ]})
      results.

(** The documents a code-table search result is converted to:
    [{ metadata: { ...row.metadata, pageNumber, similarityScore } }]. *)
Definition codeDocuments (results : list Row) : list Document :=
  map (fun row =>
         fromText (row_content row)
           {[ "metadata" :=
                Object (<["similarityScore" := Num (similarity_score row)]>
                          (<["pageNumber" := Num (inject_Z (page_number row))]>
                             (row_metadata row))) ]})
      results.

(** The similarity-threshold stage, the same in the four retrievers. *)
Definition applyThreshold (options : Options) (documents : list Document) : list Document :=
  if truthy_num (similarityThreshold options)
  then List.filter
         (fun doc => geNumber (prop (doc_metadata doc) "similarityScore")
                       (default 0%Q (similarityThreshold options)))
         documents
  else documents.

(** Body of [vectorDbRetriever] after the search has answered. *)
Definition vectorDbFilter (options : Options) (results : list Row) : list Document :=
  let documents := vectorDbDocuments results in
  let filteredDocs := applyThreshold options documents in
  match metadataFilter options with
  | Some filter =>
      List.filter (fun doc => matchesAll filter (doc_metadata doc)) filteredDocs
  | None => filteredDocs
  end.

(** Body of [criminalCodeRetriever], [civilCodeRetriever] and
    [criminalProcedureRetriever] after the search has answered. *)
Definition codeFilter (options : Options) (results : list Row) : list Document :=
  let documents := codeDocuments results in
  let filteredDocs := applyThreshold options documents in
  if truthy_num (pageFilter options)
  then List.filter
         (fun doc => strictEq (prop (doc_metadata doc) "pageNumber")
                       (Num (default 0%Q (pageFilter options))))
         filteredDocs
  else filteredDocs.

Inductive Name : Type :=
  | vectorDbRetriever
  | criminalCodeRetriever
  | civilCodeRetriever
  | criminalProcedureRetriever.

(** The table each retriever searches. *)
Definition table (r : Name) : Table :=
  match r with
  | vectorDbRetriever => documents
  | criminalCodeRetriever => criminal_code
  | civilCodeRetriever => civil_code
  | criminalProcedureRetriever => criminal_procedure
  end.

(** The unfiltered documents of a search result. *)
Definition unfiltered (r : Name) (results : list Row) : list Document :=
  match r with
  | vectorDbRetriever => vectorDbDocuments results
  | _ => codeDocuments results
  end.

(** The filter stages of each retriever. *)
Definition filtered (r : Name) (options : Options) (results : list Row) : list Document :=
  match r with
  | vectorDbRetriever => vectorDbFilter options results
  | _ => codeFilter options results
  end.

(** The four search functions: the query is embedded and the nearest
    rows of one table are selected. *)
Definition searchVectorDb (S : Services) (query : string) (limit : Q) :=
  searchDb S documents query limit.

Definition searchCriminalCodeDb (S : Services) (query : string) (limit : Q) :=
  searchDb S criminal_code query limit.

Definition searchCivilCodeDb (S : Services) (query : string) (limit : Q) :=
  searchDb S civil_code query limit.

Definition searchCriminalProcedureDb (S : Services) (query : string) (limit : Q) :=
  searchDb S criminal_procedure query limit.

(** The search function each retriever calls. *)
Definition search (S : Services) (r : Name) : string -> Q -> Outcome (list Row) :=
  match r with
  | vectorDbRetriever => searchVectorDb S
  | criminalCodeRetriever => searchCriminalCodeDb S
  | civilCodeRetriever => searchCivilCodeDb S
  | criminalProcedureRetriever => searchCriminalProcedureDb S
  end.

(** [options?.k || 5]. *)
Definition limitOf (options : option Options) : Q :=
  num_or_else (options ≫= k) 5.

(** The function given to [defineRetriever]: search with limit
    [options?.k || 5], convert the rows to documents, filter.  An
    error of the search is not caught.  The limit is read with [?.],
    the threshold with [options.similarityThreshold]: when no options
    were given, that read throws once the search has answered. *)
Definition run (S : Services) (r : Name) (query : string) (options : option Options)
  : Outcome (list Document) :=
  match search S r query (limitOf options) with
  | Returns results =>
      match options with
      | Some given => Returns (filtered r given results)
      | None =>
          Throws "TypeError: Cannot read properties of undefined (reading 'similarityThreshold')"
      end
  | Throws error => Throws error
  end.

(** The retriever as [ai.retrieve] calls it: the options are checked
    against [configSchema] before the function runs. *)
Definition retrieve (S : Services) (r : Name) (query : string) (options : option Options)
  : Outcome (list Document) :=
  if configSchema options
  then run S r query options
  else Throws "INVALID_ARGUMENT: Schema validation failed".

End Retriever.

(** ** Program state and the effects of an awaited call *)

(** Rows of the [chats] and [messages] tables (time stamps left out). *)
Record Chat : Type := {
  chat_id : string;
  chat_user_id : string;
  chat_title : option string
}.

Record Message : Type := {
  message_id : string;
  message_chat_id : string;
  message_sender : Role;
  message_content : string
}.

Record Database : Type := {
  chats : list Chat;
  messages : list Message
}.

(** What the process has asked of the model and of the search index. *)
Inductive Event : Type :=
  | Generated (request : GenerateRequest)
  | Searched (table : Table) (query : string) (limit : Q).

(** [CHAT_HISTORY] is the process-wide map of [index.ts]; [queries]
    counts the queries sent to the chat database so far and [log]
    records the calls made to the model and to the search index. *)
Record State : Type := {
  CHAT_HISTORY : gmap string (list ChatInterface);
  database : Database;
  queries : nat;
  log : list Event
}.

(** An asynchronous computation: it transforms the state and either
    returns or throws; the state reached when it throws is kept. *)
Definition M (A : Type) : Type := State -> State * Outcome A.

Definition ret {A} (a : A) : M A := fun st => (st, Returns a).

Definition throw {A} (error : string) : M A := fun st => (st, Throws error).

Definition bind {A B} (c : M A) (f : A -> M B) : M B :=
  fun st =>
    match c st with
    | (st', Returns a) => f a st'
    | (st', Throws error) => (st', Throws error)
    end.

(** [try { body } catch (error) { handler }]. *)
Definition tryCatch {A} (body : M A) (handler : string -> M A) : M A :=
  fun st =>
    match body st with
    | (st', Returns a) => (st', Returns a)
    | (st', Throws error) => handler error st'
    end.

Declare Scope flow_scope.
Delimit Scope flow_scope with flow.
Notation "x <- c ;; f" := (bind c (fun x => f))
  (at level 100, c at next level, right associativity) : flow_scope.
Notation "c ;; f" := (bind c (fun _ => f))
  (at level 100, right associativity) : flow_scope.
Local Open Scope flow_scope.

Definition record (e : Event) : M unit :=
  fun st =>
    ({| CHAT_HISTORY := CHAT_HISTORY st; database := database st;
        queries := queries st; log := log st ++ [e] |}, Returns tt).

(** [await ai.generate(request)]. *)
Definition ai_generate (S : Services) (request : GenerateRequest) : M (option string) :=
  record (Generated request) ;;
  fun st => (st, generate S request).

(** [await ai.retrieve({ retriever, query, options })].  Options that
    the schema refuses are an error before anything is searched. *)
Definition ai_retrieve (S : Services) (r : Retriever.Name) (query : string)
    (options : option Retriever.Options) : M (list Document) :=
  if Retriever.configSchema options
  then
    record (Searched (Retriever.table r) query (Retriever.limitOf options)) ;;
    fun st => (st, Retriever.run S r query options)
  else throw "INVALID_ARGUMENT: Schema validation failed".

(** [CHAT_HISTORY.get(id) || []]. *)
Definition history_get (id : string) : M (list ChatInterface) :=
  fun st => (st, Returns (default [] (CHAT_HISTORY st !! id))).

(** [CHAT_HISTORY.set(id, turns)]. *)
Definition history_set (id : string) (turns : list ChatInterface) : M unit :=
  fun st =>
    ({| CHAT_HISTORY := <[id := turns]> (CHAT_HISTORY st); database := database st;
        queries := queries st; log := log st |}, Returns tt).

(** ** The chat store ([services/chatService.ts]) *)
Module ChatService.

(** [await Database.query(...)]: the query is numbered and may fail.
    Failures of the connection and violated constraints are the
    faults chosen by [dbFault]. *)
Definition Database_query (S : Services) : M nat :=
  fun st =>
    let n := queries st in
    ({| CHAT_HISTORY := CHAT_HISTORY st; database := database st;
        queries := Datatypes.S n; log := log st |},
     if dbFault S n then Throws "Database query error" else Returns n).

Definition get_database : M Database := fun st => (st, Returns (database st)).

Definition set_database (db : Database) : M unit :=
  fun st =>
    ({| CHAT_HISTORY := CHAT_HISTORY st; database := db;
        queries := queries st; log := log st |}, Returns tt).

(** [INSERT INTO chats (user_id, title) VALUES ($1, $2) RETURNING ...]
    with the values [userId] and [title || null]: a missing or empty
    title is stored as [NULL]. *)
Definition createChat (S : Services) (userId : string) (title : option string) : M Chat :=
  n <- Database_query S ;;
  db <- get_database ;;
  let chat :=
    {| chat_id := newId S n; chat_user_id := userId;
       chat_title := if Js.truthy_opt title then title else None |} in
  set_database {| chats := chats db ++ [chat]; messages := messages db |} ;;
  ret chat.

(** [SELECT ... FROM chats WHERE id = $1 AND user_id = $2]. *)
Definition getChatById (S : Services) (chatId userId : string) : M (option Chat) :=
  Database_query S ;;
  db <- get_database ;;
  ret (List.find
         (fun c => String.eqb (chat_id c) chatId && String.eqb (chat_user_id c) userId)
         (chats db)).

(** [addMessage]: ownership check, then the insert inside a
    transaction that is rolled back when one of its queries fails. *)
Definition addMessage (S : Services) (chatId userId : string)
    (content : string) (sender : Role) : M Message :=
  chat <- getChatById S chatId userId ;;
  match chat with
  | None => throw "Chat not found or access denied"
  | Some _ =>
      Database_query S ;;                                   (* BEGIN *)
      saved <- get_database ;;
      tryCatch
        (n <- Database_query S ;;                           (* INSERT INTO messages *)
         db <- get_database ;;
         let message :=
           {| message_id := newId S n; message_chat_id := chatId;
              message_sender := sender; message_content := content |} in
         set_database {| chats := chats db; messages := messages db ++ [message] |} ;;
         Database_query S ;;                                (* UPDATE chats SET updated_at *)
         Database_query S ;;                                (* COMMIT *)
         ret message)
        (fun error =>
           set_database saved ;;
           Database_query S ;;                              (* ROLLBACK *)
           throw error)
  end.

End ChatService.

(** ** The flow ([index.ts]) *)
Module Flow.
Import Js.

(** Input of [autonomousAIFlow]; [userId] is optional. *)
Record Input : Type := {
  input_text : string;
  chatroomId : string;
  userId : option string
}.

Definition plainRequest (instruction : Instruction) (prompt : string) : GenerateRequest :=
  {| req_system := instruction; req_prompt := prompt; req_docs := [];
     req_tools := []; req_messages := [] |}.

(** [correctGrammar(text)] with its default arguments. *)
Definition correctGrammar (S : Services) (text : string) : M string :=
  response <- ai_generate S (plainRequest (grammarPrompt "English" false) text) ;;
  ret (opt_or_else response text).

(** [detectDocumentType(query)]. *)
Definition detectDocumentType (S : Services) (query : string) : M string :=
  response <- ai_generate S (plainRequest classifierPrompt query) ;;
  ret (Classifier.documentTypeOfResponse response).

(** The [switch] of [getDocumentRetriever]. *)
Definition retrieverOfDocumentType (documentType : string) : option Retriever.Name :=
  if String.eqb documentType "criminal" then Some Retriever.criminalCodeRetriever
  else if String.eqb documentType "civil" then Some Retriever.civilCodeRetriever
  else if String.eqb documentType "criminal_procedure"
  then Some Retriever.criminalProcedureRetriever
  else if String.eqb documentType "constitution" then Some Retriever.vectorDbRetriever
  else None.

Definition getDocumentRetriever (S : Services) (query : string) : M (option Retriever.Name) :=
  documentType <- detectDocumentType S query ;;
  ret (retrieverOfDocumentType documentType).

(** The options the flow retrieves with: [{ k: 3 }]. *)
Definition flowOptions : Retriever.Options :=
  {| Retriever.k := Some 3%Q; Retriever.similarityThreshold := None;
     Retriever.metadataFilter := None; Retriever.pageFilter := None |}.

Definition flowTools : list Tool :=
  [getConstitutionTableOfContents; getConstitutionPart; getConstitutionArticle].

Definition turn (r : Role) (t : string) : ChatInterface :=
  {| role := r; content := [ {| text := t |} ] |}.

(** [CHAT_HISTORY.set(id, [...(CHAT_HISTORY.get(id) || []), turn])]. *)
Definition appendTurn (id : string) (t : ChatInterface) : M unit :=
  old <- history_get id ;;
  history_set id (old ++ [t]).

(** [input.userId && input.chatroomId]. *)
Definition authenticated (input : Input) : bool :=
  truthy_opt (userId input) && truthy (chatroomId input).

(** The body of [autonomousAIFlow]. *)
Definition autonomousAIFlow (S : Services) (input : Input) : M string :=
  let prompt := input_text input in
  refinedPrompt <- correctGrammar S prompt ;;
  selectedRetriever <- getDocumentRetriever S refinedPrompt ;;
  docs <- match selectedRetriever with
          | Some r => ai_retrieve S r refinedPrompt (Some flowOptions)
          | None => ret []
          end ;;
  (if authenticated input
   then
     let uid := default "" (userId input) in
     tryCatch
       (chat <- ChatService.getChatById S (chatroomId input) uid ;;
        match chat with
        | None =>
            ChatService.createChat S uid
              (Some (substring 0 50 refinedPrompt +:+ "...")) ;;
            ret tt
        | Some _ => ret tt
        end ;;
        ChatService.addMessage S (chatroomId input) uid prompt user ;;
        ret tt)
       (fun _ => ret tt)
   else appendTurn (chatroomId input) (turn user prompt)) ;;
  history <- history_get (chatroomId input) ;;
  response <- ai_generate S
    {| req_system := assistantPrompt; req_prompt := refinedPrompt; req_docs := docs;
       req_tools := flowTools;
       req_messages := if truthy_opt (userId input) then [] else history |} ;;
  (if authenticated input && truthy_opt response
   then
     let uid := default "" (userId input) in
     tryCatch
       (ChatService.addMessage S (chatroomId input) uid (default "" response) model ;;
        ret tt)
       (fun _ => ret tt)
   else appendTurn (chatroomId input) (turn model (opt_or_else response ""))) ;;
  ret (opt_or_else response "No response generated.").

(** One message as [getChatHistory] shows it. *)
Record HistoryEntry : Type := {
  entry_role : Role;
  entry_content : string
}.

(** The body of [getChatHistory]. *)
Definition getChatHistory (id : string) : M (list HistoryEntry) :=
  chatHistory <- history_get id ;;
  ret (map (fun msg =>
              {| entry_role := role msg;
                 entry_content := join " " (map text (content msg)) |})
           chatHistory).

End Flow.

(** ** The flow of the first version ([index.ts], first version) *)
Module FirstFlow.

(** What this flow reads of the response of [ai.generate]: its
    message, which may be absent, and in it the array of the parts. *)
Record Response : Type := { message : option (list ChatMessagePart) }.

(** The argument of its [ai.generate]; the system prompt is one fixed
    text. *)
Record Request : Type := {
  prompt : string;
  docs : list Document;
  tools : list Tool
}.

(** What the flow hands to its caller: the parts of a message, or a
    string. *)
Inductive Output : Type :=
  | Parts (content : list ChatMessagePart)
  | Text (sentence : string).

(** The options the flow retrieves with: [{ k: 2 }]. *)
Definition flowOptions : Retriever.Options :=
  {| Retriever.k := Some 2%Q; Retriever.similarityThreshold := None;
     Retriever.metadataFilter := None; Retriever.pageFilter := None |}.

(** The body of [autonomousAIFlow]: the constitution is searched for
    the input text, the model is asked once, and the flow returns
    [response.message?.content || "No response generated."].  An
    array is truthy, also when it is empty, so the sentence is
    returned for a response without a message only. *)
Definition autonomousAIFlow (S : Services) (respond : Request -> Outcome Response)
    (input_text : string) : Outcome Output :=
  match Retriever.retrieve S Retriever.vectorDbRetriever input_text (Some flowOptions) with
  | Throws error => Throws error
  | Returns passages =>
      match respond {| prompt := input_text; docs := passages; tools := Flow.flowTools |} with
      | Throws error => Throws error
      | Returns response =>
          Returns match message response with
                  | Some content => Parts content
                  | None => Text "No response generated."
                  end
      end
  end.

End FirstFlow.

(** ** Vocabulary of the properties *)

(** The text of a message: the texts of its parts, one after the
    other. *)
Definition textOf (content : list ChatMessagePart) : string :=
  Js.join "" (map text content).

(** [needle] occurs in [text] up to letter case. *)
Definition containsIgnoringCase (text needle : string) : Prop :=
  exists pre u post, text = pre +:+ u +:+ post /\ Js.toLowerCase u = needle.

(** A response is blank when nothing is left of it after trimming. *)
Definition blank (text : option string) : Prop :=
  match text with
  | Some t => Js.trim t = ""
  | None => True
  end.

(** A response the classifier does not recognise: something is left
    of it after trimming, and none of the words the classifier looks
    for occurs in it in any letter case. *)
Definition unrecognized (text : option string) : Prop :=
  match text with
  | Some t =>
      Js.trim t <> "" /\ ~ containsIgnoringCase t "criminal" /\
      ~ containsIgnoringCase t "civil" /\ ~ containsIgnoringCase t "constitution"
  | None => False
  end.

(** No code unit of [s] is white space. *)
Fixpoint noWhiteSpace (s : string) : bool :=
  match s with
  | EmptyString => true
  | String c r => negb (Js.isWhiteSpace c) && noWhiteSpace r
  end.

(** What a retriever has written about a passage: the properties of
    the object under the [metadata] property of the passage's
    metadata (none, for a passage without such an object). *)
Definition written (doc : Document) : gmap string Js.Value :=
  match doc_metadata doc !! "metadata" with
  | Some (Js.Object fields) => fields
  | _ => ∅
  end.

(** The passage carries a similarity score of at least [t]. *)
Definition scoreAtLeast (t : Q) (doc : Document) : Prop :=
  exists s, written doc !! "similarityScore" = Some (Js.Num s) /\ (t <= s)%Q.



(** What [getChatHistory] answers in a state. *)
Definition historyOf (id : string) (st : State) : list Flow.HistoryEntry :=
  match (Flow.getChatHistory id st).2 with
  | Returns entries => entries
  | Throws _ => []
  end.


(** A step of the chat store: it leaves the in-memory table and the
    log alone and adds to [messages] only rows that satisfy [P]. *)
Definition storeStep (P : Message -> Prop) (st st' : State) : Prop :=
  CHAT_HISTORY st' = CHAT_HISTORY st /\ log st' = log st /\
  exists new : list Message,
    messages (database st') = (messages (database st) ++ new)%list /\ Forall P new.

(** The rows [addMessage] writes for one sender and content. *)
Definition rowOf (sender : Role) (content : string) (m : Message) : Prop :=
  message_sender m = sender /\ message_content m = content.

(** ** The stages of a request *)

(** The state after some more calls have been logged. *)
Definition addLog (st : State) (events : list Event) : State :=
  {| CHAT_HISTORY := CHAT_HISTORY st; database := database st;
     queries := queries st; log := log st ++ events |}.

(** The requests sent by [correctGrammar] and [detectDocumentType]. *)
Definition grammarRequest (text : string) : GenerateRequest :=
  Flow.plainRequest (grammarPrompt "English" false) text.

Definition classifierRequest (query : string) : GenerateRequest :=
  Flow.plainRequest classifierPrompt query.

(** The request sent by the generation stage. *)
Definition assistantRequest (input : Flow.Input) (refinedPrompt : string)
    (docs : list Document) (history : list ChatInterface) : GenerateRequest :=
  {| req_system := assistantPrompt; req_prompt := refinedPrompt; req_docs := docs;
     req_tools := Flow.flowTools;
     req_messages := if Js.truthy_opt (Flow.userId input) then [] else history |}.

(** The call on which a request has stopped last: every awaited call
    of the model or of the search index is logged before it is made. *)
Definition lastCall (st : State) : option Event := last (log st).

Definition isGeneration (e : Event) : bool :=
  match e with
  | Generated request =>
      match req_system request with assistantPrompt => true | _ => false end
  | Searched _ _ _ => false
  end.

(** The test of [getChatById]: the chat has this identifier and owner. *)
Definition ownedBy (chatId userId : string) (c : Chat) : bool :=
  String.eqb (chat_id c) chatId && String.eqb (chat_user_id c) userId.

(** What a message row says, apart from its own identifier. *)
Definition rowView (m : Message) : string * Role * string :=
  (message_chat_id m, message_sender m, message_content m).




(** The stages up to retrieval, read off the services: the calls they
    make, and the corrected text and passages they hand on. *)
Definition retrievalStages (S : Services) (text : string)
  : list Event * Outcome (string * list Document) :=
  match generate S (grammarRequest text) with
  | Throws e => ([Generated (grammarRequest text)], Throws e)
  | Returns g =>
      let refined := Js.opt_or_else g text in
      let asked := [Generated (grammarRequest text); Generated (classifierRequest refined)] in
      match generate S (classifierRequest refined) with
      | Throws e => (asked, Throws e)
      | Returns c =>
          match Flow.retrieverOfDocumentType (Classifier.documentTypeOfResponse c) with
          | None => (asked, Returns (refined, []))
          | Some r =>
              let searched := (asked ++ [Searched (Retriever.table r) refined 3])%list in
              match Retriever.search S r refined 3 with
              | Throws e => (searched, Throws e)
              | Returns rows =>
                  (searched, Returns (refined, Retriever.filtered r Flow.flowOptions rows))
              end
          end
      end
  end.

(** The part of [autonomousAIFlow] that follows retrieval. *)
Definition afterRetrieval (S : Services) (input : Flow.Input) (refinedPrompt : string)
    (docs : list Document) : M string :=
  let prompt := Flow.input_text input in
  ((if Flow.authenticated input
   then
     let uid := default "" (Flow.userId input) in
     tryCatch
       (chat <- ChatService.getChatById S (Flow.chatroomId input) uid ;;
        match chat with
        | None =>
            ChatService.createChat S uid
              (Some (substring 0 50 refinedPrompt +:+ "...")) ;;
            ret tt
        | Some _ => ret tt
        end ;;
        ChatService.addMessage S (Flow.chatroomId input) uid prompt user ;;
        ret tt)
       (fun _ => ret tt)
   else Flow.appendTurn (Flow.chatroomId input) (Flow.turn user prompt)) ;;
  history <- history_get (Flow.chatroomId input) ;;
  response <- ai_generate S (assistantRequest input refinedPrompt docs history) ;;
  (if Flow.authenticated input && Js.truthy_opt response
   then
     let uid := default "" (Flow.userId input) in
     tryCatch
       (ChatService.addMessage S (Flow.chatroomId input) uid (default "" response) model ;;
        ret tt)
       (fun _ => ret tt)
   else Flow.appendTurn (Flow.chatroomId input)
          (Flow.turn model (Js.opt_or_else response ""))) ;;
  ret (Js.opt_or_else response "No response generated."))%flow.

(** ** Sample runs *)

(** Services that answer the same whatever they are asked: one answer
    for each of the three instructions, and one search result. *)
Definition fixedServices (grammar classifier answer : Outcome (option string))
    (rows : Outcome (list Row)) : Services :=
  {| generate := fun request =>
       match req_system request with
       | grammarPrompt _ _ => grammar
       | classifierPrompt => classifier
       | assistantPrompt => answer
       end;
     searchDb := fun _ _ _ => rows;
     dbFault := fun _ => false;
     newId := fun _ => "00000000-0000-4000-8000-000000000000" |}.

Definition freshState : State :=
  {| CHAT_HISTORY := ∅; database := {| chats := []; messages := [] |};
     queries := 0; log := [] |}.

Definition sampleRow (content : string) (page : Z) (score : Q) : Row :=
  {| row_content := content; row_metadata := ∅; page_number := page;
     similarity_score := score |}.

(** A search that finds passages of two chapters. *)
Definition chapterRow (content chapter : string) (score : Q) : Row :=
  {| row_content := content; row_metadata := {[ "chapter" := Js.Str chapter ]};
     page_number := 1; similarity_score := score |}.

Definition guest (text id : string) : Flow.Input :=
  {| Flow.input_text := text; Flow.chatroomId := id; Flow.userId := None |}.

(** Options that set one field only. *)
Definition onlyThreshold (t : Q) : Retriever.Options :=
  {| Retriever.k := None; Retriever.similarityThreshold := Some t;
     Retriever.metadataFilter := None; Retriever.pageFilter := None |}.


(** A run in which every call succeeds. *)
Definition theftServices : Services :=
  fixedServices (Returns (Some "What is theft?")) (Returns (Some "criminal"))
    (Returns (Some "Theft is ...")) (Returns [sampleRow "Section 241" 120 (9#10)]).

(** A signed-in user who owns the chat the request names. *)
Definition member (text id uid : string) : Flow.Input :=
  {| Flow.input_text := text; Flow.chatroomId := id; Flow.userId := Some uid |}.

Definition memberState (id uid : string) : State :=
  {| CHAT_HISTORY := ∅;
     database := {| chats := [ {| chat_id := id; chat_user_id := uid; chat_title := None |} ];
                    messages := [] |};
     queries := 0; log := [] |}.

(** A run in which the model greets back. *)
Definition helloServices : Services :=
  fixedServices (Returns (Some "Hello")) (Returns (Some "none"))
    (Returns (Some "Hi")) (Returns []).

(** A run in which the classifier answers with both words. *)
Definition bailServices : Services :=
  fixedServices (Returns None) (Returns (Some "Criminal Procedure Code"))
    (Returns None) (Returns []).

(** A run in which the classifier answers with the [none] tag. *)
Definition classifierNone : Services :=
  fixedServices (Returns (Some "How are you?")) (Returns (Some "none"))
    (Returns (Some "Fine.")) (Returns [sampleRow "Article 1" 1 (9#10)]).

(** A run in which the classifier answers with the empty text. *)
Definition classifierSilent : Services :=
  fixedServices (Returns (Some "What is theft?")) (Returns (Some ""))
    (Returns (Some "Theft is ...")) (Returns [sampleRow "Article 1" 1 (9#10)]).

(** A run in which the classifier call fails. *)
Definition classifierDown : Services :=
  fixedServices (Returns (Some "What is theft?")) (Throws "model unavailable")
    (Returns (Some "Theft is ...")) (Returns [sampleRow "Section 241" 120 (9#10)]).

(** A run in which the search fails. *)
Definition searchDown : Services :=
  fixedServices (Returns (Some "What is theft?")) (Returns (Some "criminal"))
    (Returns (Some "Theft is ...")) (Throws "connection refused").

(** A run in which the generation call fails. *)
Definition generationDown : Services :=
  fixedServices (Returns (Some "What is theft?")) (Returns (Some "criminal"))
    (Throws "model unavailable") (Returns [sampleRow "Section 241" 120 (9#10)]).

(** A run in which the model generates the empty text. *)
Definition generationSilent : Services :=
  fixedServices (Returns (Some "What is theft?")) (Returns (Some "criminal"))
    (Returns (Some "")) (Returns [sampleRow "Section 241" 120 (9#10)]).

(** A model that answers every request of the first flow with a
    message whose one part has the empty text. *)
Definition silentMessage (request : FirstFlow.Request) : Outcome FirstFlow.Response :=
  Returns {| FirstFlow.message := Some [ {| text := "" |} ] |}.

(** A search that finds three passages, scored 0.91, 0.77 and 0.40. *)
Definition threeRows : list Row :=
  [sampleRow "first" 1 (91#100); sampleRow "second" 2 (77#100); sampleRow "third" 3 (40#100)].

Definition threeFound : Services :=
  fixedServices (Returns None) (Returns None) (Returns None) (Returns threeRows).

(** A search that finds one passage pointing away from the query. *)
Definition oppositeFound : Services :=
  fixedServices (Returns None) (Returns None) (Returns None)
    (Returns [sampleRow "opposite" 1 (-1#10)]).

Definition chaptersFound : Services :=
  fixedServices (Returns None) (Returns None) (Returns None)
    (Returns [chapterRow "Section 1" "1" (9#10); chapterRow "Section 40" "2" (8#10)]).

(** ** Vocabulary of the further properties *)

(** The five answers the classifier is instructed to give. *)
Definition documentTypes : list string :=
  ["criminal_procedure"; "criminal"; "civil"; "constitution"; "none"].

(** The document type each embedding table holds. *)
Definition documentTypeOfTable (t : Table) : string :=
  match t with
  | documents => "constitution"
  | criminal_code => "criminal"
  | civil_code => "civil"
  | criminal_procedure => "criminal_procedure"
  end.

(** Every code unit of [s] is white space. *)
Fixpoint allWhiteSpace (s : string) : bool :=
  match s with
  | EmptyString => true
  | String c r => Js.isWhiteSpace c && allWhiteSpace r
  end.

(** The options with another threshold. *)
Definition withThreshold (t : Q) (options : Retriever.Options) : Retriever.Options :=
  {| Retriever.k := Retriever.k options;
     Retriever.similarityThreshold := Some t;
     Retriever.metadataFilter := Retriever.metadataFilter options;
     Retriever.pageFilter := Retriever.pageFilter options |}.


(** The passage is the conversion of the row: it has the text of the
    row, and its metadata is an object with the one property
    [metadata]; the object under it has the stored metadata of the
    row and, on top of it, the page (code tables) and the score
    computed by the search. *)
Definition convertedFrom (r : Retriever.Name) (row : Row) (doc : Document) : Prop :=
  doc_text doc = row_content row /\
  (exists fields, doc_metadata doc = {[ "metadata" := Js.Object fields ]}) /\
  written doc !! "similarityScore" = Some (Js.Num (similarity_score row)) /\
  (r <> Retriever.vectorDbRetriever ->
   written doc !! "pageNumber" = Some (Js.Num (inject_Z (page_number row)))) /\
  (forall key, key <> "similarityScore" ->
               (r <> Retriever.vectorDbRetriever -> key <> "pageNumber") ->
               written doc !! key = row_metadata row !! key).


(** The kinds of awaited calls a request logs. *)
Inductive CallKind : Type := GrammarCall | ClassifierCall | SearchCall | GenerationCall.

Definition kindOf (e : Event) : CallKind :=
  match e with
  | Searched _ _ _ => SearchCall
  | Generated request =>
      match req_system request with
      | grammarPrompt _ _ => GrammarCall
      | classifierPrompt => ClassifierCall
      | assistantPrompt => GenerationCall
      end
  end.

(** No conversation of the in-memory table is an empty list. *)
Definition noEmptyConversation (st : State) : Prop :=
  forall id turns, CHAT_HISTORY st !! id = Some turns -> turns <> [].

(** The two guarded blocks of the flow that write to the chat store. *)
Definition saveUserMessage (S : Services) (input : Flow.Input) (refinedPrompt : string)
  : M unit :=
  (let uid := default "" (Flow.userId input) in
   tryCatch
     (chat <- ChatService.getChatById S (Flow.chatroomId input) uid ;;
      match chat with
      | None =>
          ChatService.createChat S uid
            (Some (substring 0 50 refinedPrompt +:+ "...")) ;;
          ret tt
      | Some _ => ret tt
      end ;;
      ChatService.addMessage S (Flow.chatroomId input) uid (Flow.input_text input) user ;;
      ret tt)
     (fun _ => ret tt))%flow.

Definition saveModelMessage (S : Services) (input : Flow.Input) (reply : string) : M unit :=
  (let uid := default "" (Flow.userId input) in
   tryCatch
     (ChatService.addMessage S (Flow.chatroomId input) uid reply model ;; ret tt)
     (fun _ => ret tt))%flow.

(** The state after one more query has been sent to the chat database. *)
Definition afterQuery (st : State) : State :=
  {| CHAT_HISTORY := CHAT_HISTORY st; database := database st;
     queries := Datatypes.S (queries st); log := log st |}.

(** A signed-in user without a chat yet. *)
Definition newcomerState : State :=
  {| CHAT_HISTORY := ∅; database := {| chats := []; messages := [] |};
     queries := 0; log := [] |}.

(** The services of [theftServices] with a chat database whose every
    query fails. *)
Definition storeDown : Services :=
  {| generate := generate theftServices; searchDb := searchDb theftServices;
     dbFault := fun _ => true; newId := newId theftServices |}.

(** * The code around the claims *)

(** ** The flow before sign-in was added ([index.ts], earlier version) *)
Module GuestFlow.
Import Js.

Record Input : Type := {
  input_text : string;
  chatroomId : string
}.

(** The body of that [autonomousAIFlow]: every request goes through
    [CHAT_HISTORY]. *)
Definition autonomousAIFlow (S : Services) (input : Input) : M string :=
  let prompt := input_text input in
  refinedPrompt <- Flow.correctGrammar S prompt ;;
  selectedRetriever <- Flow.getDocumentRetriever S refinedPrompt ;;
  docs <- match selectedRetriever with
          | Some r => ai_retrieve S r refinedPrompt (Some Flow.flowOptions)
          | None => ret []
          end ;;
  Flow.appendTurn (chatroomId input) (Flow.turn user prompt) ;;
  history <- history_get (chatroomId input) ;;
  response <- ai_generate S
    {| req_system := assistantPrompt; req_prompt := refinedPrompt; req_docs := docs;
       req_tools := Flow.flowTools; req_messages := history |} ;;
  Flow.appendTurn (chatroomId input) (Flow.turn model (opt_or_else response "")) ;;
  ret (opt_or_else response "No response generated.").

End GuestFlow.

(** ** The list of conversations ([index.ts]) *)
Module Conversations.
Import Js.

Record Entry : Type := {
  entry_chatroomId : string;
  lastMessage : Flow.HistoryEntry
}.

(** What is shown of a conversation: its last turn, or an empty user
    message when it has none. *)
Definition summary (turns : list ChatInterface) : Flow.HistoryEntry :=
  match last turns with
  | Some lastTurn =>
      {| Flow.entry_role := role lastTurn;
         Flow.entry_content := join " " (map text (content lastTurn)) |}
  | None => {| Flow.entry_role := user; Flow.entry_content := "" |}
  end.

(** The body of [getConversationList].  The array follows the order
    in which the [Map] holds its keys; a [gmap] does not record that
    order, so this list is meaningful up to the order of its entries. *)
Definition getConversationList : M (list Entry) :=
  fun st =>
    (st, Returns (map (fun kv => {| entry_chatroomId := kv.1; lastMessage := summary kv.2 |})
                      (map_to_list (CHAT_HISTORY st)))).

End Conversations.

(** ** More of the chat store ([services/chatService.ts]) *)
Module ChatServiceMore.
Import ChatService.

Definition sameChat (chatId : string) (c : Chat) : bool := String.eqb (chat_id c) chatId.

Definition inChat (chatId : string) (m : Message) : bool :=
  String.eqb (message_chat_id m) chatId.

(** [deleteChat]: inside a transaction, the ownership check, then the
    messages of the chat and the chat itself are deleted. *)
Definition deleteChat (S : Services) (chatId userId : string) : M unit :=
  Database_query S ;;                                       (* BEGIN *)
  saved <- get_database ;;
  tryCatch
    (chat <- getChatById S chatId userId ;;
     match chat with
     | None => throw "Chat not found or access denied"
     | Some _ =>
         Database_query S ;;                                (* DELETE FROM messages *)
         db <- get_database ;;
         set_database
           {| chats := chats db;
              messages := List.filter (fun m => negb (inChat chatId m)) (messages db) |} ;;
         Database_query S ;;                                (* DELETE FROM chats *)
         db' <- get_database ;;
         set_database
           {| chats := List.filter (fun c => negb (sameChat chatId c)) (chats db');
              messages := messages db' |} ;;
         Database_query S ;;                                (* COMMIT *)
         ret tt
     end)
    (fun error =>
       set_database saved ;;
       Database_query S ;;                                  (* ROLLBACK *)
       throw error).

End ChatServiceMore.

(** ** The description of a part of the constitution ([tools/constitution.ts]) *)
Module Constitution.
Import Js.

Record ConstitutionPart : Type := {
  partNumber : string;
  title : string;
  description : option string
}.

Definition tocPart (number name about : string) : ConstitutionPart :=
  {| partNumber := number; title := name; description := Some about |}.

Definition FALLBACK_TOC : list ConstitutionPart := [
  tocPart "Part-1" "Preliminary"
    "Basic provisions defining Nepal, its sovereignty, and state symbols";
  tocPart "Part-2" "Citizenship"
    "Provisions regarding acquisition and termination of citizenship";
  tocPart "Part-3" "Fundamental Rights and Duties"
    "Rights guaranteed to citizens and their fundamental duties";
  tocPart "Part-4" "Directive Principles, Policies and Obligations of the State"
    "Guiding principles for state governance and policy";
  tocPart "Part-5" "Structure of State and Distribution of State Power"
    "Federal structure and distribution of power";
  tocPart "Part-6" "President and Vice-President"
    "Roles, responsibilities and election of President and Vice-President";
  tocPart "Part-7" "Federal Executive"
    "Structure and functions of the federal executive branch";
  tocPart "Part-8" "Federal Legislature"
    "Composition and functions of federal legislative bodies";
  tocPart "Part-9" "Federal Legislative Procedures"
    "Procedures for lawmaking at the federal level";
  tocPart "Part-10" "Federal Financial Procedures"
    "Budget, revenue allocation and financial management";
  tocPart "Part-11" "Judiciary"
    "Structure, jurisdiction and independence of courts";
  tocPart "Part-12" "Attorney General"
    "Appointment, powers and functions of the Attorney General";
  tocPart "Part-13" "State Executive"
    "Structure and functions of state executive bodies";
  tocPart "Part-14" "State Legislature"
    "Composition and functions of state legislative bodies";
  tocPart "Part-15" "State Legislative Procedures"
    "Procedures for lawmaking at the state level";
  tocPart "Part-16" "State Financial Procedures"
    "Budget and financial management at the state level";
  tocPart "Part-17" "Local Executive"
    "Structure and functions of local executive bodies";
  tocPart "Part-18" "Local Legislature"
    "Composition and functions of local legislative bodies";
  tocPart "Part-19" "Local Financial Procedures"
    "Budget and financial management at the local level";
  tocPart "Part-20" "Interrelations between Federation, State and Local level"
    "Coordination and relations between different levels of government";
  tocPart "Part-21" "Commission for the Investigation of Abuse of Authority"
    "Powers and functions of anti-corruption body";
  tocPart "Part-22" "Auditor General"
    "Appointment, powers and functions of the Auditor General";
  tocPart "Part-23" "Public Service Commission"
    "Structure and functions of the civil service commission";
  tocPart "Part-24" "Election Commission"
    "Powers and functions of the electoral management body";
  tocPart "Part-25" "National Human Rights Commission"
    "Structure and mandate of the human rights watchdog";
  tocPart "Part-26" "National Natural Resources and Fiscal Commission"
    "Management and distribution of natural resources";
  tocPart "Part-27" "Other Commissions"
    "Various commissions for marginalized communities and special interests";
  tocPart "Part-28" "Provision Relating National Security"
    "Structure and mandate of security forces";
  tocPart "Part-29" "Provision relating to Political Parties"
    "Registration and regulation of political parties";
  tocPart "Part-30" "Emergency Power"
    "Declaration and management of state emergencies";
  tocPart "Part-31" "Amendment to the Constitution"
    "Procedures for constitutional amendments";
  tocPart "Part-32" "Miscellaneous"
    "Various provisions not covered elsewhere";
  tocPart "Part-33" "Transitional Provisions"
    "Temporary arrangements during constitutional transition";
  tocPart "Part-34" "Definitions and Interpretation"
    "Definitions of terms used in the constitution";
  tocPart "Part-35" "Short Title, Commencement and Repeal"
    "Effective date and repeal of previous constitutions"
].

(** [s.split(" ")]: the pieces between the spaces, at least one piece. *)
Fixpoint splitOnSpace (s : string) : list string :=
  match s with
  | EmptyString => [EmptyString]
  | String c r =>
      if Ascii.eqb c " "
      then EmptyString :: splitOnSpace r
      else match splitOnSpace r with
           | piece :: pieces => String c piece :: pieces
           | [] => [String c EmptyString]
           end
  end.

(** [getPartDescription]: the description of the first fallback part
    whose title occurs in the part title, or a sentence made of the
    part title without its first word. *)
Definition getPartDescription (partTitle : string) : string :=
  let fallbackPart :=
    List.find (fun part => includes (toLowerCase partTitle) (toLowerCase (title part)))
      FALLBACK_TOC in
  opt_or_else
    (match fallbackPart with Some part => description part | None => None end)
    ("Constitutional provisions related to "
     +:+ join " " (List.tl (splitOnSpace partTitle))).

End Constitution.

(** * Properties *)

(** ** Strings *)
Section Strings.
Import Js.
#[local] Arguments String.append !s1 s2 : simpl nomatch.

Lemma append_nil_r (s : string) : s +:+ "" = s.
Proof. induction s as [|c s IH]; simpl; [reflexivity | now rewrite IH]. Qed.

Lemma append_assoc (a b c : string) : (a +:+ b) +:+ c = a +:+ (b +:+ c).
Proof. induction a as [|x a IH]; simpl; [reflexivity | now rewrite IH]. Qed.

Lemma append_eq_nil (a b : string) : a +:+ b = "" -> a = "" /\ b = "".
Proof. destruct a; simpl; [auto | discriminate]. Qed.

Lemma toLowerCase_append (a b : string) :
  toLowerCase (a +:+ b) = toLowerCase a +:+ toLowerCase b.
Proof. induction a as [|x a IH]; simpl; [reflexivity | now rewrite IH]. Qed.

(** A split of the lower-cased text comes from a split of the text. *)
Lemma toLowerCase_split (t a b : string) :
  toLowerCase t = a +:+ b ->
  exists t1 t2, t = t1 +:+ t2 /\ toLowerCase t1 = a /\ toLowerCase t2 = b.
Proof.
  revert t; induction a as [|x a IH]; intros t H.
  - exists "", t. auto.
  - destruct t as [|y t]; simpl in H; [discriminate|].
    injection H as Hx Ht. destruct (IH _ Ht) as (t1 & t2 & -> & H1 & H2).
    exists (String y t1), t2. simpl. now rewrite Hx, H1.
Qed.

Lemma isWhiteSpace_lowerUnit (c : ascii) : isWhiteSpace (lowerUnit c) = isWhiteSpace c.
Proof. destruct c as [[] [] [] [] [] [] [] []]; vm_compute; reflexivity. Qed.

Lemma startsWith_spec (hay needle : string) :
  startsWith hay needle = true <-> exists post, hay = needle +:+ post.
Proof.
  revert hay; induction needle as [|a n IH]; intros hay; simpl.
  - split; [intros _; now exists hay | auto]. destruct hay; auto.
  - destruct hay as [|b h].
    + split; [discriminate | intros [post H]; discriminate].
    + simpl. rewrite andb_true_iff, IH. split.
      * intros [Hab [post ->]]. apply Ascii.eqb_eq in Hab as ->. now exists post.
      * intros [post H]. injection H as -> ->. split; [apply Ascii.eqb_refl | now exists post].
Qed.

Lemma includes_spec (hay needle : string) :
  includes hay needle = true <-> exists pre post, hay = pre +:+ needle +:+ post.
Proof.
  induction hay as [|b h IH].
  - cbn [includes]. rewrite orb_false_r, startsWith_spec. split.
    + intros [post H]. now exists "", post.
    + intros (pre & post & H). symmetry in H. apply append_eq_nil in H as [-> H].
      simpl in H. eauto.
  - cbn [includes]. rewrite orb_true_iff, startsWith_spec, IH. split.
    + intros [[post H] | (pre & post & ->)].
      * now exists "", post.
      * now exists (String b pre), post.
    + intros (pre & post & H). destruct pre as [|x pre]; simpl in H.
      * left; eauto.
      * injection H as -> ->. right; eauto.
Qed.

Lemma trimEnd_cons (c : ascii) (r : string) :
  isWhiteSpace c = false -> trimEnd (String c r) = String c (trimEnd r).
Proof. intros H. simpl. rewrite H. now destruct (trimEnd r). Qed.

Lemma trimEnd_keep (n post : string) :
  noWhiteSpace n = true -> trimEnd (n +:+ post) = n +:+ trimEnd post.
Proof.
  induction n as [|c n IH]; simpl; [reflexivity|].
  rewrite andb_true_iff, negb_true_iff. intros [Hc Hn].
  rewrite <- (IH Hn). rewrite Hc. now destruct (trimEnd (n +:+ post)).
Qed.

Lemma trimEnd_append (pre s : string) :
  trimEnd s <> "" -> trimEnd (pre +:+ s) = pre +:+ trimEnd s.
Proof.
  intros Hs. induction pre as [|c pre IH]; simpl; [reflexivity|].
  rewrite IH. destruct (pre +:+ trimEnd s) eqn:E; [|reflexivity].
  apply append_eq_nil in E as [_ E]. contradiction.
Qed.

(** The trailing part removed by [trimEnd], and the leading part
    removed by [trimStart]. *)
Lemma trimEnd_suffix (s : string) : exists w, s = trimEnd s +:+ w.
Proof.
  induction s as [|c s [w IH]]; [now exists ""|]. simpl.
  destruct (trimEnd s) eqn:E.
  - destruct (isWhiteSpace c).
    + now exists (String c s).
    + exists w. simpl. simpl in IH. now rewrite <- IH.
  - exists w. simpl in *. now rewrite <- IH.
Qed.

Lemma trimStart_prefix (s : string) : exists w, s = w +:+ trimStart s.
Proof.
  induction s as [|c s [w IH]]; [now exists ""|]. simpl.
  destruct (isWhiteSpace c).
  - exists (String c w). simpl. now rewrite <- IH.
  - now exists "".
Qed.

Lemma trimStart_keep (pre n post : string) :
  n <> "" -> noWhiteSpace n = true ->
  exists pre', trimStart (pre +:+ n +:+ post) = pre' +:+ n +:+ post.
Proof.
  intros Hn Hw. induction pre as [|c pre [pre' IH]].
  - exists "". destruct n as [|c n]; [contradiction|]. simpl in *.
    apply andb_true_iff in Hw as [Hc _]. apply negb_true_iff in Hc. now rewrite Hc.
  - simpl. destruct (isWhiteSpace c); [now exists pre' | now exists (String c pre)].
Qed.

(** Trimming keeps every occurrence of a word without white space. *)
Lemma includes_trim (s n : string) :
  n <> "" -> noWhiteSpace n = true ->
  includes s n = true -> includes (trim s) n = true /\ trim s <> "".
Proof.
  intros Hn Hw H. apply includes_spec in H as (pre & post & ->).
  unfold trim. rewrite trimEnd_append.
  2:{ rewrite trimEnd_keep by assumption. intros E. apply append_eq_nil in E as [E _].
      contradiction. }
  rewrite trimEnd_keep by assumption.
  destruct (trimStart_keep pre n (trimEnd post) Hn Hw) as [pre' ->]. split.
  - apply includes_spec; eauto.
  - intros E. apply append_eq_nil in E as [_ E]. apply append_eq_nil in E as [E _].
    contradiction.
Qed.

(** What [trim] leaves is a part of the string. *)
Lemma includes_of_trim (s n : string) :
  includes (trim s) n = true -> includes s n = true.
Proof.
  rewrite !includes_spec. intros (pre & post & H). unfold trim in H.
  destruct (trimEnd_suffix s) as [w2 E2]. destruct (trimStart_prefix (trimEnd s)) as [w1 E1].
  exists (w1 +:+ pre), (post +:+ w2).
  rewrite E2 at 1. rewrite E1 at 1. rewrite H. now rewrite !append_assoc.
Qed.

Lemma trimStart_toLowerCase (s : string) :
  trimStart (toLowerCase s) = toLowerCase (trimStart s).
Proof.
  induction s as [|c s IH]; simpl; [reflexivity|].
  rewrite isWhiteSpace_lowerUnit. now destruct (isWhiteSpace c).
Qed.

Lemma trimEnd_toLowerCase (s : string) :
  trimEnd (toLowerCase s) = toLowerCase (trimEnd s).
Proof.
  induction s as [|c s IH]; simpl; [reflexivity|].
  rewrite IH, isWhiteSpace_lowerUnit.
  destruct (trimEnd s); simpl; [now destruct (isWhiteSpace c) | reflexivity].
Qed.

Lemma trim_toLowerCase (s : string) : trim (toLowerCase s) = toLowerCase (trim s).
Proof. unfold trim. now rewrite trimEnd_toLowerCase, trimStart_toLowerCase. Qed.

Lemma toLowerCase_eq_nil (s : string) : toLowerCase s = "" <-> s = "".
Proof. destruct s; simpl; split; (reflexivity || discriminate). Qed.

(** [containsIgnoringCase] is what [includes] sees after [toLowerCase]. *)
Lemma includes_toLowerCase (text needle : string) :
  includes (toLowerCase text) needle = true <-> containsIgnoringCase text needle.
Proof.
  rewrite includes_spec. split.
  - intros (a & b & H). apply toLowerCase_split in H as (t1 & t2 & -> & <- & H2).
    apply toLowerCase_split in H2 as (u & t3 & -> & <- & <-).
    exists t1, u, t3. auto.
  - intros (pre & u & post & -> & <-).
    exists (toLowerCase pre), (toLowerCase post). now rewrite !toLowerCase_append.
Qed.

Lemma truthy_true (s : string) : truthy s = true <-> s <> "".
Proof.
  unfold truthy. rewrite negb_true_iff. split.
  - intros H ->. discriminate.
  - intros H. destruct s; [contradiction | reflexivity].
Qed.

End Strings.

(** ** The flow, stage by stage *)
Section Stages.
Import Js.
Variable S : Services.

Lemma default_Some {A} (d x : A) : default d (Some x) = x.
Proof. reflexivity. Qed.

Lemma addLog_addLog (st : State) (a b : list Event) :
  addLog (addLog st a) b = addLog st (a ++ b).
Proof. unfold addLog; simpl. now rewrite app_assoc. Qed.

Lemma ai_generate_run (request : GenerateRequest) (st : State) :
  ai_generate S request st = (addLog st [Generated request], generate S request).
Proof. reflexivity. Qed.

Lemma ai_retrieve_run (r : Retriever.Name) (query : string)
    (options : option Retriever.Options) (st : State) :
  Retriever.configSchema options = true ->
  ai_retrieve S r query options st =
  (addLog st [Searched (Retriever.table r) query (Retriever.limitOf options)],
   Retriever.run S r query options).
Proof. intros H. unfold ai_retrieve. now rewrite H. Qed.

(** The flow is the stages up to retrieval followed by the rest. *)
Lemma flow_stages (input : Flow.Input) (st : State) :
  Flow.autonomousAIFlow S input st =
  match retrievalStages S (Flow.input_text input) with
  | (events, Throws e) => (addLog st events, Throws e)
  | (events, Returns (refined, docs)) =>
      afterRetrieval S input refined docs (addLog st events)
  end.
Proof.
  unfold Flow.autonomousAIFlow, retrievalStages, Flow.correctGrammar,
    Flow.getDocumentRetriever, Flow.detectDocumentType.
  unfold bind at 1 2. rewrite ai_generate_run. fold (grammarRequest (Flow.input_text input)).
  destruct (generate S (grammarRequest (Flow.input_text input))) as [g|e]; [|reflexivity].
  cbn [ret]. unfold bind at 1 2 3. rewrite ai_generate_run.
  set (refined := opt_or_else g (Flow.input_text input)).
  fold (classifierRequest refined).
  destruct (generate S (classifierRequest refined)) as [c|e];
    [|rewrite addLog_addLog; reflexivity].
  cbn [ret]. rewrite addLog_addLog.
  destruct (Flow.retrieverOfDocumentType (Classifier.documentTypeOfResponse c)) as [r|].
  - unfold bind at 1. rewrite (ai_retrieve_run r refined (Some Flow.flowOptions) _ eq_refl).
    unfold Retriever.run. change (Retriever.limitOf (Some Flow.flowOptions)) with 3%Q.
    rewrite addLog_addLog.
    destruct (Retriever.search S r refined 3) as [rows|e]; reflexivity.
  - reflexivity.
Qed.

Ltac store_crush S :=
  unfold ChatService.addMessage, ChatService.createChat, ChatService.getChatById,
    ChatService.Database_query, ChatService.get_database, ChatService.set_database,
    tryCatch, bind, ret, throw;
  cbn;
  repeat (match goal with
          | |- context [dbFault S ?n] => destruct (dbFault S n); cbn
          | |- context [List.find ?f ?l] => destruct (List.find f l); cbn
          end).

Ltac store_rows :=
  (split; [reflexivity | split; [reflexivity | cbn]]);
  first [ exists []; split; [now rewrite app_nil_r | constructor]
        | eexists; split; [reflexivity | repeat constructor] ].

(** [addMessage] writes at most the row it is asked to write. *)
Lemma storeStep_addMessage (chatId uid content : string) (sender : Role) (st : State) :
  storeStep (rowOf sender content) st
    (ChatService.addMessage S chatId uid content sender st).1.
Proof. store_crush S; store_rows. Qed.

(** Saving the user's message never fails the request: its errors are
    caught, and it can only add rows that hold the given text. *)
Lemma saveUserMessage_run (chatId uid title prompt : string) (st : State) :
  exists st1,
    tryCatch
      (chat <- ChatService.getChatById S chatId uid ;;
       match chat with
       | None => ChatService.createChat S uid (Some title) ;; ret tt
       | Some _ => ret tt
       end ;;
       ChatService.addMessage S chatId uid prompt user ;;
       ret tt)
      (fun _ => ret tt) st = (st1, Returns tt)
    /\ storeStep (rowOf user prompt) st st1.
Proof. store_crush S; eexists; (split; [reflexivity|]); store_rows. Qed.

Lemma saveModelMessage_run (chatId uid reply : string) (st : State) :
  exists st1,
    tryCatch (ChatService.addMessage S chatId uid reply model ;; ret tt)
      (fun _ => ret tt) st = (st1, Returns tt)
    /\ storeStep (rowOf model reply) st st1.
Proof. store_crush S; eexists; (split; [reflexivity|]); store_rows. Qed.

(** The unauthenticated path after retrieval: the user's turn is put
    in [CHAT_HISTORY], the model is asked, and only if it answers is
    the model's turn put there as well. *)
Lemma afterRetrieval_unauthenticated (input : Flow.Input) (refined : string)
    (docs : list Document) (st : State) :
  Flow.authenticated input = false ->
  let id := Flow.chatroomId input in
  let asked := (default [] (CHAT_HISTORY st !! id)
                ++ [Flow.turn user (Flow.input_text input)])%list in
  let request := assistantRequest input refined docs asked in
  afterRetrieval S input refined docs st =
  match generate S request with
  | Throws e =>
      ({| CHAT_HISTORY := <[id := asked]> (CHAT_HISTORY st); database := database st;
          queries := queries st; log := log st ++ [Generated request] |}, Throws e)
  | Returns response =>
      ({| CHAT_HISTORY :=
            <[id := (asked ++ [Flow.turn model (opt_or_else response "")])%list]>
              (<[id := asked]> (CHAT_HISTORY st));
          database := database st; queries := queries st;
          log := log st ++ [Generated request] |},
       Returns (opt_or_else response "No response generated."))
  end.
Proof.
  intros Hauth id asked request. unfold afterRetrieval. rewrite Hauth.
  unfold Flow.appendTurn, history_get, history_set, ai_generate, record, bind, ret.
  cbn beta iota zeta delta [CHAT_HISTORY database queries log].
  fold id. rewrite !lookup_insert_eq, !default_Some. fold asked. fold request.
  destruct (generate S request) as [response|e]; [|reflexivity].
  rewrite andb_false_l. cbn beta iota zeta delta [CHAT_HISTORY database queries log].
  rewrite lookup_insert_eq, default_Some. reflexivity.
Qed.

(** The authenticated path after retrieval. *)
Lemma afterRetrieval_authenticated (input : Flow.Input) (refined : string)
    (docs : list Document) (st : State) :
  Flow.authenticated input = true ->
  let id := Flow.chatroomId input in
  let request := assistantRequest input refined docs [] in
  exists st1 st2,
    storeStep (rowOf user (Flow.input_text input)) st st1 /\
    afterRetrieval S input refined docs st =
      (st2, match generate S request with
            | Throws e => Throws e
            | Returns response => Returns (opt_or_else response "No response generated.")
            end) /\
    log st2 = (log st ++ [Generated request])%list /\
    match generate S request with
    | Throws e => st2 = addLog st1 [Generated request]
    | Returns response =>
        if truthy_opt response
        then storeStep (rowOf model (default "" response))
               (addLog st1 [Generated request]) st2
        else database st2 = database st1 /\
             CHAT_HISTORY st2 =
               <[id := (default [] (CHAT_HISTORY st !! id) ++ [Flow.turn model ""])%list]>
                 (CHAT_HISTORY st)
    end.
Proof.
  intros Hauth id request. unfold afterRetrieval. rewrite Hauth.
  assert (Huid : truthy_opt (Flow.userId input) = true).
  { unfold Flow.authenticated in Hauth. now apply andb_true_iff in Hauth as [H _]. }
  cbn zeta.
  destruct (saveUserMessage_run (Flow.chatroomId input) (default "" (Flow.userId input))
              (substring 0 50 refined +:+ "...") (Flow.input_text input) st)
    as (st1 & Hrun & Hstep).
  exists st1.
  unfold bind at 1. rewrite Hrun.
  unfold bind at 1. unfold history_get at 1. unfold bind at 1.
  rewrite ai_generate_run.
  replace (assistantRequest input refined docs (default [] (CHAT_HISTORY st1 !! Flow.chatroomId input)))
    with request by (unfold request, assistantRequest; now rewrite Huid).
  assert (Hstep' := Hstep). destruct Hstep' as (Hh & Hl & _).
  destruct (generate S request) as [response|e].
  - rewrite andb_true_l. destruct (truthy_opt response) eqn:Ht.
    + destruct (saveModelMessage_run (Flow.chatroomId input)
                  (default "" (Flow.userId input)) (default "" response)
                  (addLog st1 [Generated request])) as (st2 & Hrun2 & Hstep2).
      exists st2. unfold bind at 1. rewrite Hrun2. cbn [ret].
      split; [exact Hstep|]. split; [reflexivity|]. split; [|exact Hstep2].
      destruct Hstep2 as (_ & -> & _). cbn. now rewrite Hl.
    + eexists. unfold Flow.appendTurn, history_get, history_set, bind, ret.
      cbn beta iota zeta delta [CHAT_HISTORY database queries log addLog].
      split; [exact Hstep|]. split; [reflexivity|].
      cbn beta iota zeta delta [CHAT_HISTORY database queries log addLog].
      split; [now rewrite Hl|]. split; [reflexivity|].
      fold id. rewrite Hh.
      destruct response as [r|]; cbn in Ht |- *.
      * unfold or_else. now rewrite Ht.
      * reflexivity.
  - eexists. split; [exact Hstep|]. split; [reflexivity|].
    split; [cbn; now rewrite Hl|]. reflexivity.
Qed.

Lemma lastCall_addLog (st : State) (events : list Event) (x : Event) :
  last events = Some x -> lastCall (addLog st events) = Some x.
Proof. intros H. unfold lastCall, addLog; cbn. rewrite last_app. now rewrite H. Qed.

(** The stages up to retrieval never end on a generation request. *)
Lemma retrievalStages_last (text : string) :
  exists x, last (retrievalStages S text).1 = Some x /\ isGeneration x = false.
Proof.
  unfold retrievalStages.
  destruct (generate S (grammarRequest text)) as [g|e]; [|eexists; split; reflexivity].
  destruct (generate S (classifierRequest _)) as [c|e]; [|eexists; split; reflexivity].
  destruct (Flow.retrieverOfDocumentType _) as [r|]; [|eexists; split; reflexivity].
  destruct (Retriever.search S _ _ _); eexists; split; reflexivity.
Qed.


Lemma opt_or_else_falsy (response : option string) (d : string) :
  truthy_opt response = false -> opt_or_else response d = d.
Proof. destruct response as [r|]; [|reflexivity]. cbn. unfold or_else. now intros ->. Qed.

Lemma opt_or_else_nonempty (response : option string) (d : string) :
  d <> "" -> opt_or_else response d <> "".
Proof.
  intros Hd. destruct response as [r|]; [|exact Hd]. cbn. unfold or_else.
  destruct (truthy r) eqn:E; [now apply truthy_true | exact Hd].
Qed.

(** Whatever the path, the stages after retrieval ask the model once,
    with the corrected text and the retrieved passages, and hand its
    text on, or the fixed sentence when that text is empty. *)
Lemma afterRetrieval_asks (input : Flow.Input) (refined : string)
    (docs : list Document) (st : State) :
  exists history,
    let request := assistantRequest input refined docs history in
    log (afterRetrieval S input refined docs st).1
      = (log st ++ [Generated request])%list /\
    (afterRetrieval S input refined docs st).2 =
      match generate S request with
      | Throws e => Throws e
      | Returns response => Returns (opt_or_else response "No response generated.")
      end.
Proof.
  destruct (Flow.authenticated input) eqn:Hauth.
  - destruct (afterRetrieval_authenticated input refined docs st Hauth)
      as (st1 & st2 & _ & -> & Hlog & _).
    exists []. split; [exact Hlog | reflexivity].
  - rewrite (afterRetrieval_unauthenticated input refined docs st Hauth).
    exists (default [] (CHAT_HISTORY st !! Flow.chatroomId input)
              ++ [Flow.turn user (Flow.input_text input)])%list.
    cbn zeta.
    destruct (generate S (assistantRequest _ _ _ _)); split; reflexivity.
Qed.

End Stages.

(** ** The classifier *)
Section ClassifierFacts.
Import Js.

Lemma documentType_procedure (t : string) :
  containsIgnoringCase t "criminal" -> containsIgnoringCase t "procedure" ->
  Classifier.documentTypeOfResponse (Some t) = "criminal_procedure".
Proof.
  intros Hc Hp. apply includes_toLowerCase in Hc, Hp.
  apply includes_trim in Hc as [Hc Hne]; [|discriminate|reflexivity].
  apply includes_trim in Hp as [Hp _]; [|discriminate|reflexivity].
  unfold Classifier.documentTypeOfResponse. cbn [option_map opt_or_else].
  unfold or_else. apply truthy_true in Hne. rewrite Hne, Hc, Hp. reflexivity.
Qed.

Lemma documentType_unrecognized (c : option string) :
  unrecognized c -> Classifier.documentTypeOfResponse c = "none".
Proof.
  destruct c as [t|]; [|contradiction]. intros (Hne & H1 & H2 & H3).
  unfold Classifier.documentTypeOfResponse. cbn [option_map opt_or_else].
  assert (Hdt : truthy (trim (toLowerCase t)) = true).
  { apply truthy_true. rewrite trim_toLowerCase. intros E.
    apply (proj1 (toLowerCase_eq_nil _)) in E. contradiction. }
  unfold or_else. rewrite Hdt.
  assert (Hno : forall n, ~ containsIgnoringCase t n ->
                          includes (trim (toLowerCase t)) n = false).
  { intros n Hn. apply not_true_is_false. intros E. apply Hn.
    apply includes_toLowerCase. now apply includes_of_trim. }
  rewrite (Hno _ H1), (Hno _ H2), (Hno _ H3). reflexivity.
Qed.

Lemma documentType_blank (c : option string) :
  blank c -> Classifier.documentTypeOfResponse c = "constitution".
Proof.
  destruct c as [t|]; [|reflexivity]. cbn [blank]. intros E.
  unfold Classifier.documentTypeOfResponse. cbn [option_map opt_or_else].
  rewrite trim_toLowerCase, E. reflexivity.
Qed.

Lemma detectDocumentType_run (S : Services) (query : string) (st : State) :
  Flow.detectDocumentType S query st =
  (addLog st [Generated (classifierRequest query)],
   match generate S (classifierRequest query) with
   | Returns c => Returns (Classifier.documentTypeOfResponse c)
   | Throws e => Throws e
   end).
Proof.
  unfold Flow.detectDocumentType, bind. rewrite ai_generate_run.
  fold (classifierRequest query). now destruct (generate S (classifierRequest query)).
Qed.

Lemma getDocumentRetriever_run (S : Services) (query : string) (st : State) :
  Flow.getDocumentRetriever S query st =
  (addLog st [Generated (classifierRequest query)],
   match generate S (classifierRequest query) with
   | Returns c =>
       Returns (Flow.retrieverOfDocumentType (Classifier.documentTypeOfResponse c))
   | Throws e => Throws e
   end).
Proof.
  unfold Flow.getDocumentRetriever, bind. rewrite detectDocumentType_run.
  now destruct (generate S (classifierRequest query)).
Qed.

End ClassifierFacts.

(** C7.  A classifier response that contains both "criminal" and
    "procedure", in any letter case, resolves to the
    criminal-procedure tag and selects the criminal-procedure
    retriever; it never resolves to the plain criminal tag. *)
Theorem procedure_before_criminal (S : Services) (query : string) (st : State)
    (t : string) :
  generate S (classifierRequest query) = Returns (Some t) ->
  containsIgnoringCase t "criminal" ->
  containsIgnoringCase t "procedure" ->
  (Flow.detectDocumentType S query st).2 = Returns "criminal_procedure" /\
  (Flow.detectDocumentType S query st).2 <> Returns "criminal" /\
  (Flow.getDocumentRetriever S query st).2 =
    Returns (Some Retriever.criminalProcedureRetriever).
Proof.
  intros Hgen Hc Hp.
  rewrite detectDocumentType_run, getDocumentRetriever_run, Hgen. cbn [snd].
  rewrite (documentType_procedure t Hc Hp). repeat split. discriminate.
Qed.

Lemma procedure_before_criminal_witness :
  (Flow.detectDocumentType bailServices "How is bail granted?" freshState).2
    = Returns "criminal_procedure" /\
  (Flow.detectDocumentType bailServices "How is bail granted?" freshState).2
    <> Returns "criminal" /\
  (Flow.getDocumentRetriever bailServices "How is bail granted?" freshState).2 =
    Returns (Some Retriever.criminalProcedureRetriever).
Proof.
  apply (procedure_before_criminal bailServices "How is bail granted?" freshState
           "Criminal Procedure Code").
  - reflexivity.
  - exists "", "Criminal", " Procedure Code". split; reflexivity.
  - exists "Criminal ", "Procedure", " Code". split; reflexivity.
Defined.

(** C1, as the code has it.  An error of the classification call is
    not caught: the request fails with that error after the grammar
    and the classification call, nothing is retrieved or generated, and
    the conversation history is left as it was. *)
Theorem classification_error_propagates (S : Services) (input : Flow.Input)
    (st : State) (g : option string) (e : string) :
  let text := Flow.input_text input in
  let refined := Js.opt_or_else g text in
  generate S (grammarRequest text) = Returns g ->
  generate S (classifierRequest refined) = Throws e ->
  Flow.autonomousAIFlow S input st =
    (addLog st [Generated (grammarRequest text); Generated (classifierRequest refined)],
     Throws e).
Proof.
  intros text refined Hg Hc. rewrite flow_stages. unfold retrievalStages.
  fold text. rewrite Hg. fold refined. now rewrite Hc.
Qed.

Lemma classification_error_propagates_witness :
  Flow.autonomousAIFlow classifierDown (guest "what is theft" "c1") freshState =
    (addLog freshState
       [Generated (grammarRequest "what is theft");
        Generated (classifierRequest "What is theft?")],
     Throws "model unavailable").
Proof.
  apply (classification_error_propagates classifierDown (guest "what is theft" "c1")
           freshState (Some "What is theft?") "model unavailable"); reflexivity.
Defined.

(** C1 as stated fails: with a classifier that throws, the request
    does not reach generation but fails with the classifier's error. *)
Lemma classification_error_aborts :
  generate classifierDown (classifierRequest "What is theft?")
    = Throws "model unavailable" /\
  (Flow.autonomousAIFlow classifierDown (guest "what is theft" "c1") freshState).2
    = Throws "model unavailable" /\
  Forall (fun e => isGeneration e = false)
    (log (Flow.autonomousAIFlow classifierDown (guest "what is theft" "c1") freshState).1).
Proof. vm_compute. repeat split; repeat constructor. Qed.

(** C2, as the code has it.  A response that is not blank and holds
    none of the words "criminal", "civil" and "constitution", in any
    letter case, resolves to [none]: nothing is searched and the
    generation call gets no passages.  A response whose text is absent,
    empty or white space only resolves to [constitution], and the
    constitution table is searched. *)
Theorem unrecognized_response_skips_retrieval (S : Services) (input : Flow.Input)
    (st : State) (g c : option string) :
  let text := Flow.input_text input in
  let refined := Js.opt_or_else g text in
  let asked := [Generated (grammarRequest text); Generated (classifierRequest refined)] in
  generate S (grammarRequest text) = Returns g ->
  generate S (classifierRequest refined) = Returns c ->
  (unrecognized c ->
     (Flow.detectDocumentType S refined st).2 = Returns "none" /\
     exists history,
       log (Flow.autonomousAIFlow S input st).1 =
       (log st ++ asked ++ [Generated (assistantRequest input refined [] history)])%list)
  /\
  (blank c ->
     (Flow.detectDocumentType S refined st).2 = Returns "constitution" /\
     exists rest,
       log (Flow.autonomousAIFlow S input st).1 =
       (log st ++ asked ++ [Searched documents refined 3] ++ rest)%list).
Proof.
  intros text refined asked Hg Hc.
  rewrite detectDocumentType_run, Hc. cbn [snd].
  rewrite flow_stages. unfold retrievalStages. fold text. rewrite Hg. fold refined.
  rewrite Hc. split; intros H.
  - rewrite (documentType_unrecognized c H). split; [reflexivity|].
    cbn [Flow.retrieverOfDocumentType String.eqb Ascii.eqb Bool.eqb].
    destruct (afterRetrieval_asks S input refined []
                (addLog st [Generated (grammarRequest text);
                            Generated (classifierRequest refined)]))
      as (history & Hlog & _).
    exists history. rewrite Hlog. cbn [log addLog]. now rewrite <- app_assoc.
  - rewrite (documentType_blank c H). split; [reflexivity|].
    change (Flow.retrieverOfDocumentType "constitution")
      with (Some Retriever.vectorDbRetriever).
    cbn [Retriever.table].
    destruct (Retriever.search S Retriever.vectorDbRetriever refined 3) as [rows|e].
    + destruct (afterRetrieval_asks S input refined
                  (Retriever.filtered Retriever.vectorDbRetriever Flow.flowOptions rows)
                  (addLog st ([Generated (grammarRequest text);
                               Generated (classifierRequest refined)]
                              ++ [Searched documents refined 3])))
        as (history & Hlog & _).
      eexists. rewrite Hlog. cbn [log addLog]. rewrite <- !app_assoc. reflexivity.
    + exists []. cbn [fst log addLog]. now rewrite app_nil_r.
Qed.

Lemma unrecognized_response_skips_retrieval_witness :
  (Flow.detectDocumentType classifierNone "How are you?" freshState).2 = Returns "none" /\
  exists history,
    log (Flow.autonomousAIFlow classifierNone (guest "how r u" "c1") freshState).1 =
    (log freshState
     ++ [Generated (grammarRequest "how r u"); Generated (classifierRequest "How are you?")]
     ++ [Generated (assistantRequest (guest "how r u" "c1") "How are you?" [] history)])%list.
Proof.
  apply (unrecognized_response_skips_retrieval classifierNone (guest "how r u" "c1")
           freshState (Some "How are you?") (Some "none")); try reflexivity.
  repeat split; try discriminate;
    rewrite <- includes_toLowerCase; vm_compute; discriminate.
Defined.

(** C2 as stated fails on the empty response: the classifier answers
    [constitution], the constitution table is searched and its passage
    is handed to the generation call. *)
Lemma empty_response_still_retrieves :
  generate classifierSilent (classifierRequest "What is theft?") = Returns (Some "") /\
  (Flow.detectDocumentType classifierSilent "What is theft?" freshState).2
    = Returns "constitution" /\
  log (Flow.autonomousAIFlow classifierSilent (guest "what is theft" "c1") freshState).1 =
    [Generated (grammarRequest "what is theft");
     Generated (classifierRequest "What is theft?");
     Searched documents "What is theft?" 3;
     Generated
       (assistantRequest (guest "what is theft" "c1") "What is theft?"
          [fromText "Article 1"
             {[ "metadata" := Js.Object (<["similarityScore" := Js.Num (9#10)]> ∅) ]}]
          [Flow.turn user "what is theft"])].
Proof. repeat split; vm_compute; reflexivity. Qed.

(** ** Failures and the in-memory history *)

(** C3, as the code has it.  When a request on the unauthenticated
    path fails, the call it failed on is the last one logged.  If that
    call is the generation call, the user's turn has already been
    appended to the conversation and nothing else has changed; if it
    is an earlier call, the in-memory table is as it was. *)
Theorem failed_request_history (S : Services) (input : Flow.Input) (st st' : State)
    (e : string) :
  Flow.authenticated input = false ->
  Flow.autonomousAIFlow S input st = (st', Throws e) ->
  exists call,
    lastCall st' = Some call /\
    CHAT_HISTORY st' =
      if isGeneration call
      then <[Flow.chatroomId input :=
               (default [] (CHAT_HISTORY st !! Flow.chatroomId input)
                ++ [Flow.turn user (Flow.input_text input)])%list]> (CHAT_HISTORY st)
      else CHAT_HISTORY st.
Proof.
  intros Hauth. rewrite flow_stages.
  destruct (retrievalStages_last S (Flow.input_text input)) as (x & Hlast & Hx).
  destruct (retrievalStages S (Flow.input_text input)) as [events [[refined docs]|e']].
  - rewrite (afterRetrieval_unauthenticated S input refined docs _ Hauth).
    cbn [CHAT_HISTORY addLog log].
    destruct (generate S _) as [response|e'']; intros H; inversion H; subst.
    eexists. split.
    + unfold lastCall. cbn [log]. apply last_snoc.
    + reflexivity.
  - intros H; inversion H; subst. exists x. split.
    + now apply lastCall_addLog.
    + now rewrite Hx.
Qed.

Lemma failed_request_history_witness :
  exists call,
    lastCall (Flow.autonomousAIFlow generationDown (guest "what is theft" "c1") freshState).1
      = Some call /\
    CHAT_HISTORY (Flow.autonomousAIFlow generationDown (guest "what is theft" "c1") freshState).1 =
      if isGeneration call
      then <["c1" := (default [] (CHAT_HISTORY freshState !! "c1")
                      ++ [Flow.turn user "what is theft"])%list]> (CHAT_HISTORY freshState)
      else CHAT_HISTORY freshState.
Proof.
  apply (failed_request_history generationDown (guest "what is theft" "c1") freshState
           (Flow.autonomousAIFlow generationDown (guest "what is theft" "c1") freshState).1
           "model unavailable").
  - reflexivity.
  - vm_compute. reflexivity.
Defined.

(** C3 as stated fails: when the generation call throws, the history
    of the conversation is no longer what it was before the request;
    the user's turn is in it. *)
Lemma generation_error_keeps_user_turn :
  (Flow.autonomousAIFlow generationDown (guest "what is theft" "c1") freshState).2
    = Throws "model unavailable" /\
  CHAT_HISTORY freshState !! "c1" = None /\
  CHAT_HISTORY (Flow.autonomousAIFlow generationDown (guest "what is theft" "c1") freshState).1
    !! "c1" = Some [Flow.turn user "what is theft"].
Proof. repeat split; vm_compute; reflexivity. Qed.

(** ** The generated text *)
Section Generation.
Import Js.
Variable S : Services.

(** When the last call of a request is a generation request, the
    request got past retrieval and its result is what that call gave. *)
Lemma flow_result_of_generation (input : Flow.Input) (st : State)
    (request : GenerateRequest) :
  lastCall (Flow.autonomousAIFlow S input st).1 = Some (Generated request) ->
  req_system request = assistantPrompt ->
  (Flow.autonomousAIFlow S input st).2 =
    match generate S request with
    | Throws e => Throws e
    | Returns response => Returns (opt_or_else response "No response generated.")
    end.
Proof.
  rewrite flow_stages.
  destruct (retrievalStages_last S (Flow.input_text input)) as (x & Hlast & Hx).
  destruct (retrievalStages S (Flow.input_text input)) as [events [[refined docs]|e']].
  - destruct (afterRetrieval_asks S input refined docs (addLog st events))
      as (history & Hlog & Hout).
    unfold lastCall. rewrite Hlog, last_snoc. intros [= <-] _. exact Hout.
  - cbn [fst snd]. rewrite (lastCall_addLog st events x Hlast).
    intros [= ->] Hsys. cbn in Hx. now rewrite Hsys in Hx.
Qed.

(** The flow never hands an empty string to its caller. *)
Lemma flow_result_nonempty (input : Flow.Input) (st : State) :
  (Flow.autonomousAIFlow S input st).2 <> Returns "".
Proof.
  rewrite flow_stages.
  destruct (retrievalStages S (Flow.input_text input)) as [events [[refined docs]|e']];
    [|discriminate].
  destruct (afterRetrieval_asks S input refined docs (addLog st events))
    as (history & _ & ->).
  destruct (generate S _) as [response|e]; [|discriminate].
  intros [= H]. now apply (opt_or_else_nonempty response "No response generated.").
Qed.

End Generation.

(** C8, on the flow of the first version.  When the response of the
    generation call has a message, the flow returns the parts of that
    message, whatever their text: a response whose text is empty is
    handed to the caller as its parts, and the sentence "No response
    generated." is not returned.  The sentence is returned only for a
    response without a message. *)
Theorem first_flow_returns_parts (S : Services)
    (respond : FirstFlow.Request -> Outcome FirstFlow.Response) (input_text : string)
    (passages : list Document) (response : FirstFlow.Response) :
  Retriever.retrieve S Retriever.vectorDbRetriever input_text (Some FirstFlow.flowOptions)
    = Returns passages ->
  respond {| FirstFlow.prompt := input_text; FirstFlow.docs := passages;
             FirstFlow.tools := Flow.flowTools |} = Returns response ->
  match FirstFlow.message response with
  | Some content =>
      FirstFlow.autonomousAIFlow S respond input_text = Returns (FirstFlow.Parts content) /\
      FirstFlow.autonomousAIFlow S respond input_text
      <> Returns (FirstFlow.Text "No response generated.")
  | None =>
      FirstFlow.autonomousAIFlow S respond input_text
      = Returns (FirstFlow.Text "No response generated.")
  end.
Proof.
  intros Hretrieve Hrespond. unfold FirstFlow.autonomousAIFlow.
  rewrite Hretrieve, Hrespond.
  destruct (FirstFlow.message response) as [content|]; [|reflexivity].
  split; [reflexivity | discriminate].
Qed.

Lemma first_flow_returns_parts_witness :
  textOf [ {| text := "" |} ] = "" /\
  FirstFlow.autonomousAIFlow generationSilent silentMessage "what is theft"
    = Returns (FirstFlow.Parts [ {| text := "" |} ]) /\
  FirstFlow.autonomousAIFlow generationSilent silentMessage "what is theft"
    <> Returns (FirstFlow.Text "No response generated.").
Proof.
  split; [reflexivity|].
  apply (first_flow_returns_parts generationSilent silentMessage "what is theft"
           (Retriever.unfiltered Retriever.vectorDbRetriever
              [sampleRow "Section 241" 120 (9#10)])
           {| FirstFlow.message := Some [ {| text := "" |} ] |}).
  - vm_compute. reflexivity.
  - reflexivity.
Defined.

(** C9.  On the unauthenticated path, when the generation call returns
    an empty text, the caller gets the fixed sentence, but the
    conversation gains the user's turn followed by a model turn whose
    text is empty, and [getChatHistory] shows that model message with
    the empty string as its content. *)
Theorem empty_generation_is_recorded (S : Services) (input : Flow.Input) (st : State)
    (request : GenerateRequest) (response : option string) :
  let id := Flow.chatroomId input in
  let st' := (Flow.autonomousAIFlow S input st).1 in
  Flow.authenticated input = false ->
  lastCall st' = Some (Generated request) ->
  req_system request = assistantPrompt ->
  generate S request = Returns response ->
  Js.truthy_opt response = false ->
  (Flow.autonomousAIFlow S input st).2 = Returns "No response generated." /\
  CHAT_HISTORY st' !! id =
    Some (default [] (CHAT_HISTORY st !! id)
          ++ [Flow.turn user (Flow.input_text input); Flow.turn model ""])%list /\
  historyOf id st' =
    (historyOf id st
     ++ [ {| Flow.entry_role := user; Flow.entry_content := Flow.input_text input |};
          {| Flow.entry_role := model; Flow.entry_content := "" |} ])%list.
Proof.
  intros id st' Hauth Hlast Hsys Hgen Hempty.
  split.
  { rewrite (flow_result_of_generation S input st request Hlast Hsys), Hgen.
    now rewrite (opt_or_else_falsy response _ Hempty). }
  revert Hlast. unfold st'. clear st'. rewrite flow_stages.
  destruct (retrievalStages_last S (Flow.input_text input)) as (x & Hx & Hgenx).
  destruct (retrievalStages S (Flow.input_text input)) as [events [[refined docs]|e']].
  - rewrite (afterRetrieval_unauthenticated S input refined docs _ Hauth).
    cbn [CHAT_HISTORY addLog log]. fold id.
    set (asked := (default [] (CHAT_HISTORY st !! id)
                   ++ [Flow.turn user (Flow.input_text input)])%list).
    set (request' := assistantRequest input refined docs asked).
    destruct (generate S request') as [response'|e''] eqn:Hgen'.
    + unfold lastCall. cbn [fst log]. rewrite last_snoc. intros [= <-].
      rewrite Hgen in Hgen'. injection Hgen' as <-.
      rewrite (opt_or_else_falsy response _ Hempty).
      assert (Hlookup :
        <[id := (asked ++ [Flow.turn model ""])%list]> (<[id := asked]> (CHAT_HISTORY st))
          !! id
        = Some (default [] (CHAT_HISTORY st !! id)
                ++ [Flow.turn user (Flow.input_text input); Flow.turn model ""])%list).
      { rewrite lookup_insert_eq. unfold asked. now rewrite <- app_assoc. }
      split; [exact Hlookup|].
      unfold historyOf, Flow.getChatHistory, history_get, bind, ret.
      cbn [fst snd CHAT_HISTORY]. rewrite Hlookup, default_Some.
      now rewrite map_app.
    + unfold lastCall. cbn [fst log]. rewrite last_snoc. intros [= <-].
      rewrite Hgen in Hgen'. discriminate.
  - cbn [fst]. rewrite (lastCall_addLog st events x Hx).
    intros [= ->]. cbn in Hgenx. now rewrite Hsys in Hgenx.
Qed.

Lemma empty_generation_is_recorded_witness :
  (Flow.autonomousAIFlow generationSilent (guest "what is theft" "c1") freshState).2
    = Returns "No response generated." /\
  CHAT_HISTORY (Flow.autonomousAIFlow generationSilent (guest "what is theft" "c1") freshState).1
    !! "c1" =
    Some (default [] (CHAT_HISTORY freshState !! "c1")
          ++ [Flow.turn user "what is theft"; Flow.turn model ""])%list /\
  historyOf "c1"
    (Flow.autonomousAIFlow generationSilent (guest "what is theft" "c1") freshState).1 =
    (historyOf "c1" freshState
     ++ [ {| Flow.entry_role := user; Flow.entry_content := "what is theft" |};
          {| Flow.entry_role := model; Flow.entry_content := "" |} ])%list.
Proof.
  apply (empty_generation_is_recorded generationSilent (guest "what is theft" "c1")
           freshState
           (assistantRequest (guest "what is theft" "c1") "What is theft?"
              (Retriever.filtered Retriever.criminalCodeRetriever Flow.flowOptions
                 [sampleRow "Section 241" 120 (9#10)])
              [Flow.turn user "what is theft"])
           (Some "")).
  - reflexivity.
  - vm_compute. reflexivity.
  - reflexivity.
  - reflexivity.
  - reflexivity.
Defined.

(** ** The chat store ([services/chatService.ts]) *)
Section ChatStoreFacts.
Variable S : Services.

Lemma getChatById_run (chatId uid : string) (st : State) :
  ChatService.getChatById S chatId uid st =
  (afterQuery st,
   if dbFault S (queries st) then Throws "Database query error"
   else Returns (List.find (ownedBy chatId uid) (chats (database st)))).
Proof.
  unfold ChatService.getChatById, ChatService.Database_query, ChatService.get_database,
    bind, ret. now destruct (dbFault S (queries st)).
Qed.

Lemma find_ownedBy (chatId uid : string) (l : list Chat) (c : Chat) :
  List.find (ownedBy chatId uid) l = Some c ->
  In c l /\ chat_id c = chatId /\ chat_user_id c = uid.
Proof.
  intros H. apply find_some in H as [Hin H]. unfold ownedBy in H.
  apply andb_true_iff in H as [H1 H2]. apply String.eqb_eq in H1, H2. auto.
Qed.

Lemma find_ownedBy_snoc (chatId uid : string) (l : list Chat) (c : Chat) :
  List.find (ownedBy chatId uid) l = None -> chat_id c <> chatId ->
  List.find (ownedBy chatId uid) (l ++ [c]) = None.
Proof.
  intros Hl Hc. induction l as [|x l IH]; cbn in *.
  - unfold ownedBy. apply String.eqb_neq in Hc. now rewrite Hc.
  - destruct (ownedBy chatId uid x); [discriminate | now apply IH].
Qed.

(** [addMessage] when every query succeeds and the chat is the user's. *)
Lemma addMessage_ok (chatId uid content : string) (sender : Role) (st : State) (c : Chat) :
  (forall n, dbFault S n = false) ->
  List.find (ownedBy chatId uid) (chats (database st)) = Some c ->
  exists m st',
    ChatService.addMessage S chatId uid content sender st = (st', Returns m) /\
    rowView m = (chatId, sender, content) /\
    database st' = {| chats := chats (database st);
                      messages := messages (database st) ++ [m] |} /\
    CHAT_HISTORY st' = CHAT_HISTORY st /\ log st' = log st.
Proof.
  intros Hfault Hfind.
  unfold ChatService.addMessage. unfold bind at 1. rewrite getChatById_run, Hfault, Hfind.
  unfold ChatService.Database_query, ChatService.get_database, ChatService.set_database,
    tryCatch, bind, ret.
  cbn [queries database afterQuery]. rewrite !Hfault.
  eexists. eexists. split; [reflexivity|]. repeat split.
Qed.

(** [addMessage] when the chat is not the user's: whether or not the
    look-up itself fails, it throws after that one query. *)
Lemma addMessage_missing (chatId uid content : string) (sender : Role) (st : State) :
  List.find (ownedBy chatId uid) (chats (database st)) = None ->
  ChatService.addMessage S chatId uid content sender st =
  (afterQuery st,
   Throws (if dbFault S (queries st) then "Database query error"
           else "Chat not found or access denied")).
Proof.
  intros Hfind. unfold ChatService.addMessage. unfold bind at 1.
  rewrite getChatById_run, Hfind. now destruct (dbFault S (queries st)).
Qed.

Lemma createChat_run (uid : string) (title : option string) (st : State) :
  ChatService.createChat S uid title st =
  if dbFault S (queries st) then (afterQuery st, Throws "Database query error")
  else
    let chat := {| chat_id := newId S (queries st); chat_user_id := uid;
                   chat_title := if Js.truthy_opt title then title else None |} in
    ({| CHAT_HISTORY := CHAT_HISTORY st;
        database := {| chats := chats (database st) ++ [chat];
                       messages := messages (database st) |};
        queries := Datatypes.S (queries st); log := log st |}, Returns chat).
Proof.
  unfold ChatService.createChat, ChatService.Database_query, ChatService.get_database,
    ChatService.set_database, bind, ret. now destruct (dbFault S (queries st)).
Qed.

(** The title the flow gives a new chat is never empty. *)
Lemma title_truthy (refined : string) :
  Js.truthy_opt (Some (substring 0 50 refined +:+ "...")) = true.
Proof.
  cbn. unfold Js.truthy. apply negb_true_iff, String.eqb_neq. intros H.
  apply append_eq_nil in H as [_ H]. discriminate.
Qed.

(** The first guarded block when the chat exists and no query fails. *)
Lemma saveUserMessage_ok (input : Flow.Input) (refined : string) (st : State) (c : Chat) :
  (forall n, dbFault S n = false) ->
  List.find (ownedBy (Flow.chatroomId input) (default "" (Flow.userId input)))
    (chats (database st)) = Some c ->
  exists m st',
    saveUserMessage S input refined st = (st', Returns tt) /\
    rowView m = (Flow.chatroomId input, user, Flow.input_text input) /\
    database st' = {| chats := chats (database st);
                      messages := messages (database st) ++ [m] |} /\
    CHAT_HISTORY st' = CHAT_HISTORY st /\ log st' = log st.
Proof.
  intros Hfault Hfind. unfold saveUserMessage. cbn zeta. unfold tryCatch.
  unfold bind at 1. rewrite getChatById_run, Hfault, Hfind.
  unfold bind at 1. cbn [ret]. unfold bind at 1.
  destruct (addMessage_ok (Flow.chatroomId input) (default "" (Flow.userId input))
              (Flow.input_text input) user (afterQuery st) c Hfault Hfind)
    as (m & st' & -> & Hm & Hdb & Hh & Hl).
  exists m, st'. repeat split; auto.
Qed.

Lemma saveModelMessage_ok (input : Flow.Input) (reply : string) (st : State) (c : Chat) :
  (forall n, dbFault S n = false) ->
  List.find (ownedBy (Flow.chatroomId input) (default "" (Flow.userId input)))
    (chats (database st)) = Some c ->
  exists m st',
    saveModelMessage S input reply st = (st', Returns tt) /\
    rowView m = (Flow.chatroomId input, model, reply) /\
    database st' = {| chats := chats (database st);
                      messages := messages (database st) ++ [m] |} /\
    CHAT_HISTORY st' = CHAT_HISTORY st /\ log st' = log st.
Proof.
  intros Hfault Hfind. unfold saveModelMessage. cbn zeta. unfold tryCatch, bind.
  destruct (addMessage_ok (Flow.chatroomId input) (default "" (Flow.userId input))
              reply model st c Hfault Hfind)
    as (m & st' & -> & Hm & Hdb & Hh & Hl).
  exists m, st'. repeat split; auto.
Qed.

(** The first guarded block when the user has no chat of that
    identifier and the database never hands that identifier out: a
    chat may be created, no message is written. *)
Lemma saveUserMessage_missing (input : Flow.Input) (refined : string) (st : State) :
  let id := Flow.chatroomId input in
  let uid := default "" (Flow.userId input) in
  (forall n, newId S n <> id) ->
  List.find (ownedBy id uid) (chats (database st)) = None ->
  exists st',
    saveUserMessage S input refined st = (st', Returns tt) /\
    messages (database st') = messages (database st) /\
    CHAT_HISTORY st' = CHAT_HISTORY st /\ log st' = log st /\
    List.find (ownedBy id uid) (chats (database st')) = None /\
    (chats (database st') = chats (database st) \/
     dbFault S (queries st) = false /\ dbFault S (Datatypes.S (queries st)) = false /\
     chats (database st') =
       (chats (database st)
        ++ [ {| chat_id := newId S (Datatypes.S (queries st)); chat_user_id := uid;
                chat_title := Some (substring 0 50 refined +:+ "...") |} ])%list).
Proof.
  intros id uid Hid Hfind. unfold saveUserMessage. cbn zeta. fold id. fold uid.
  unfold tryCatch. unfold bind at 1. rewrite getChatById_run, Hfind.
  destruct (dbFault S (queries st)) eqn:F1.
  - eexists. split; [reflexivity|].
    cbn [database chats messages afterQuery CHAT_HISTORY log]. repeat split; auto.
  - unfold bind at 1. unfold bind at 1. rewrite createChat_run, title_truthy.
    cbn [queries afterQuery]. destruct (dbFault S (Datatypes.S (queries st))) eqn:F2.
    + eexists. split; [reflexivity|].
      cbn [database chats messages afterQuery CHAT_HISTORY log]. repeat split; auto.
    + cbn zeta. cbn [ret]. unfold bind at 1.
      rewrite addMessage_missing.
      2:{ cbn [database chats afterQuery]. apply find_ownedBy_snoc; [exact Hfind|]. apply Hid. }
      eexists. split; [reflexivity|]. cbn [database chats messages afterQuery CHAT_HISTORY log].
      repeat split; auto.
      apply find_ownedBy_snoc; [exact Hfind | apply Hid].
Qed.

Lemma saveModelMessage_missing (input : Flow.Input) (reply : string) (st : State) :
  List.find (ownedBy (Flow.chatroomId input) (default "" (Flow.userId input)))
    (chats (database st)) = None ->
  saveModelMessage S input reply st = (afterQuery st, Returns tt).
Proof.
  intros Hfind. unfold saveModelMessage. cbn zeta. unfold tryCatch, bind.
  now rewrite addMessage_missing.
Qed.

(** The steps of a signed-in request after retrieval. *)
Lemma afterRetrieval_authenticated_steps (input : Flow.Input) (refined : string)
    (docs : list Document) (st : State) :
  Flow.authenticated input = true ->
  let request := assistantRequest input refined docs [] in
  let st1 := addLog (saveUserMessage S input refined st).1 [Generated request] in
  afterRetrieval S input refined docs st =
  match generate S request with
  | Throws e => (st1, Throws e)
  | Returns response =>
      (((if Js.truthy_opt response
         then saveModelMessage S input (default "" response)
         else Flow.appendTurn (Flow.chatroomId input)
                (Flow.turn model (Js.opt_or_else response ""))) st1).1,
       Returns (Js.opt_or_else response "No response generated."))
  end.
Proof.
  intros Hauth request st1.
  assert (Huid : Js.truthy_opt (Flow.userId input) = true).
  { unfold Flow.authenticated in Hauth. now apply andb_true_iff in Hauth as [H _]. }
  unfold afterRetrieval. rewrite Hauth. cbn zeta.
  fold (saveUserMessage S input refined).
  destruct (saveUserMessage_run S (Flow.chatroomId input) (default "" (Flow.userId input))
              (substring 0 50 refined +:+ "...") (Flow.input_text input) st)
    as (st0 & Hrun & _).
  fold (saveUserMessage S input refined) in Hrun.
  unfold st1. rewrite Hrun. cbn [fst].
  unfold bind at 1. rewrite Hrun.
  unfold bind at 1. unfold history_get at 1. unfold bind at 1. rewrite ai_generate_run.
  replace (assistantRequest input refined docs
             (default [] (CHAT_HISTORY st0 !! Flow.chatroomId input)))
    with request by (unfold request, assistantRequest; now rewrite Huid).
  destruct (generate S request) as [response|e]; [|reflexivity].
  rewrite andb_true_l. destruct (Js.truthy_opt response).
  - fold (saveModelMessage S input (default "" response)).
    destruct (saveModelMessage_run S (Flow.chatroomId input) (default "" (Flow.userId input))
                (default "" response) (addLog st0 [Generated request])) as (st2 & Hrun2 & _).
    fold (saveModelMessage S input (default "" response)) in Hrun2.
    unfold bind at 1. now rewrite Hrun2.
  - unfold bind at 1.
    destruct (Flow.appendTurn _ _ _) as [st2 [[]|e]] eqn:E; [reflexivity|].
    unfold Flow.appendTurn, history_get, history_set, bind in E. discriminate.
Qed.

End ChatStoreFacts.

(** ** Original and corrected text *)
Section Original.
Variable S : Services.




End Original.



(** ** The retrievers *)
Section RetrieverFacts.
Import Js.
Variable S : Services.

Lemma filter_sublist {A} (f : A -> bool) (l : list A) : List.filter f l `sublist_of` l.
Proof.
  induction l as [|x l IH]; cbn; [constructor|].
  destruct (f x); now constructor.
Qed.

Lemma map_sublist {A B} (f : A -> B) (l1 l2 : list A) :
  l1 `sublist_of` l2 -> map f l1 `sublist_of` map f l2.
Proof. induction 1; cbn; now constructor. Qed.

Lemma applyThreshold_sublist (options : Retriever.Options) (documents : list Document) :
  Retriever.applyThreshold options documents `sublist_of` documents.
Proof.
  unfold Retriever.applyThreshold.
  destruct (truthy_num _); [apply filter_sublist | reflexivity].
Qed.

Lemma filtered_sublist (r : Retriever.Name) (options : Retriever.Options)
    (results : list Row) :
  Retriever.filtered r options results `sublist_of` Retriever.unfiltered r results.
Proof.
  assert (Hv : Retriever.vectorDbFilter options results
               `sublist_of` Retriever.vectorDbDocuments results).
  { unfold Retriever.vectorDbFilter. cbn zeta.
    destruct (Retriever.metadataFilter options);
      [etransitivity; [apply filter_sublist|] |]; apply applyThreshold_sublist. }
  assert (Hc : Retriever.codeFilter options results
               `sublist_of` Retriever.codeDocuments results).
  { unfold Retriever.codeFilter. cbn zeta.
    destruct (truthy_num (Retriever.pageFilter options));
      [etransitivity; [apply filter_sublist|] |]; apply applyThreshold_sublist. }
  destruct r; assumption.
Qed.

Lemma unfiltered_text (r : Retriever.Name) (results : list Row) :
  map doc_text (Retriever.unfiltered r results) = map row_content results.
Proof.
  destruct r; cbn; unfold Retriever.vectorDbDocuments, Retriever.codeDocuments;
    rewrite map_map; reflexivity.
Qed.

(** What a retriever writes about a passage it has just converted. *)
Lemma written_fromText (content : string) (fields : gmap string Value) :
  written (fromText content {[ "metadata" := Object fields ]}) = fields.
Proof. unfold written. cbn [doc_metadata]. now rewrite lookup_singleton_eq. Qed.

(** Reading a property of the metadata of a converted passage: only
    [metadata] is there. *)
Lemma prop_converted (fields : gmap string Value) (key : string) :
  prop ({[ "metadata" := Object fields ]} : gmap string Value) key =
  if String.eqb key "metadata" then Object fields else Undefined.
Proof.
  unfold prop. destruct (String.eqb_spec key "metadata") as [->|Hne].
  - now rewrite lookup_singleton_eq.
  - rewrite lookup_singleton_ne; [reflexivity | congruence].
Qed.

(** The shape of an unfiltered passage. *)
Lemma unfiltered_shape (r : Retriever.Name) (results : list Row) (doc : Document) :
  In doc (Retriever.unfiltered r results) ->
  exists row fields,
    In row results /\
    doc = fromText (row_content row) {[ "metadata" := Object fields ]} /\
    fields !! "similarityScore" = Some (Num (similarity_score row)) /\
    (r <> Retriever.vectorDbRetriever ->
     fields !! "pageNumber" = Some (Num (inject_Z (page_number row)))) /\
    (forall key, key <> "similarityScore" ->
                 (r <> Retriever.vectorDbRetriever -> key <> "pageNumber") ->
                 fields !! key = row_metadata row !! key).
Proof.
  intros H.
  assert (Hcode : forall row key,
            key <> "similarityScore" -> key <> "pageNumber" ->
            (<["similarityScore" := Num (similarity_score row)]>
               (<["pageNumber" := Num (inject_Z (page_number row))]> (row_metadata row)))
              !! key = row_metadata row !! key).
  { intros row key H1 H2. rewrite !lookup_insert_ne; congruence. }
  destruct r; cbn in H; apply in_map_iff in H as (row & <- & Hrow);
    exists row; eexists; (split; [exact Hrow|]); (split; [reflexivity|]);
    (split; [apply lookup_insert_eq|]).
  - split; [intros Hr; now destruct Hr|].
    intros key H1 _. rewrite lookup_insert_ne; congruence.
  - split; [intros _; rewrite lookup_insert_ne; [apply lookup_insert_eq | discriminate]|].
    intros key H1 H2. apply Hcode; [exact H1 | apply H2; discriminate].
  - split; [intros _; rewrite lookup_insert_ne; [apply lookup_insert_eq | discriminate]|].
    intros key H1 H2. apply Hcode; [exact H1 | apply H2; discriminate].
  - split; [intros _; rewrite lookup_insert_ne; [apply lookup_insert_eq | discriminate]|].
    intros key H1 H2. apply Hcode; [exact H1 | apply H2; discriminate].
Qed.

(** Every unfiltered passage carries the score of its row. *)
Lemma unfiltered_score (r : Retriever.Name) (results : list Row) (doc : Document) :
  In doc (Retriever.unfiltered r results) ->
  exists row, In row results /\
    written doc !! "similarityScore" = Some (Num (similarity_score row)).
Proof.
  intros H. apply unfiltered_shape in H as (row & fields & Hrow & -> & Hscore & _).
  exists row. split; [exact Hrow|]. now rewrite written_fromText.
Qed.

(** What the stages read of an unfiltered passage: [undefined] for the
    score and for the page. *)
Lemma unfiltered_prop (r : Retriever.Name) (results : list Row) (doc : Document)
    (key : string) :
  In doc (Retriever.unfiltered r results) ->
  key <> "metadata" ->
  prop (doc_metadata doc) key = Undefined.
Proof.
  intros H Hkey. apply unfiltered_shape in H as (row & fields & _ & -> & _).
  cbn [doc_metadata]. rewrite prop_converted.
  apply String.eqb_neq in Hkey. now rewrite Hkey.
Qed.

Lemma unfiltered_prop_metadata (r : Retriever.Name) (results : list Row) (doc : Document)
    (value : Value) :
  In doc (Retriever.unfiltered r results) ->
  strictEq (prop (doc_metadata doc) "metadata") value = false.
Proof.
  intros H. apply unfiltered_shape in H as (row & fields & _ & -> & _).
  cbn [doc_metadata]. rewrite prop_converted. reflexivity.
Qed.




Lemma sublist_In {A} (l1 l2 : list A) (x : A) :
  l1 `sublist_of` l2 -> In x l1 -> In x l2.
Proof. induction 1; cbn; intuition. Qed.

(** What remains after the threshold stage, when it is applied. *)
Lemma filtered_threshold (r : Retriever.Name) (options : Retriever.Options)
    (results : list Row) (doc : Document) :
  truthy_num (Retriever.similarityThreshold options) = true ->
  In doc (Retriever.filtered r options results) ->
  Retriever.geNumber (prop (doc_metadata doc) "similarityScore")
    (default 0%Q (Retriever.similarityThreshold options)) = true.
Proof.
  intros Ht Hin.
  assert (Hth : In doc (Retriever.applyThreshold options (Retriever.unfiltered r results))).
  { destruct r; cbn in Hin |- *;
      unfold Retriever.vectorDbFilter, Retriever.codeFilter in Hin; cbn zeta in Hin.
    - destruct (Retriever.metadataFilter options); [apply filter_In in Hin as [Hin _]|];
        exact Hin.
    - destruct (truthy_num (Retriever.pageFilter options));
        [apply filter_In in Hin as [Hin _]|]; exact Hin.
    - destruct (truthy_num (Retriever.pageFilter options));
        [apply filter_In in Hin as [Hin _]|]; exact Hin.
    - destruct (truthy_num (Retriever.pageFilter options));
        [apply filter_In in Hin as [Hin _]|]; exact Hin. }
  unfold Retriever.applyThreshold in Hth. rewrite Ht in Hth.
  now apply filter_In in Hth as [_ Hth].
Qed.


Lemma run_returns (r : Retriever.Name) (query : string) (options : Retriever.Options)
    (results : list Row) :
  Retriever.search S r query (num_or_else (Retriever.k options) 5) = Returns results ->
  Retriever.run S r query (Some options) = Returns (Retriever.filtered r options results).
Proof.
  intros H. unfold Retriever.run.
  change (Retriever.limitOf (Some options)) with (num_or_else (Retriever.k options) 5).
  now rewrite H.
Qed.

End RetrieverFacts.

(** C4, as the code has it.  For each of the four retrievers, when
    the options set a similarity threshold [t] that is not zero, every
    passage of the result has a score of at least [t].  A threshold of
    zero is taken as not set and nothing is dropped for it, so at zero
    the bound holds when the search itself returned no negative score. *)
Theorem threshold_respected (S : Services) (r : Retriever.Name) (query : string)
    (options : Retriever.Options) (t : Q) (results : list Row) :
  Retriever.similarityThreshold options = Some t ->
  ~ (t == 0)%Q \/ Forall (fun row => (0 <= similarity_score row)%Q) results ->
  Retriever.search S r query (Js.num_or_else (Retriever.k options) 5) = Returns results ->
  exists docs,
    Retriever.run S r query (Some options) = Returns docs /\ Forall (scoreAtLeast t) docs.
Proof.
  intros Ht Hcase Hsearch. exists (Retriever.filtered r options results).
  split; [now apply run_returns|].
  apply List.Forall_forall. intros doc Hin.
  assert (Hun : In doc (Retriever.unfiltered r results)).
  { eapply sublist_In; [apply filtered_sublist | exact Hin]. }
  destruct (unfiltered_score r results doc Hun) as (row & Hrow & Hscore).
  exists (similarity_score row). split; [exact Hscore|].
  destruct (Qeq_bool t 0) eqn:Hz.
  - apply Qeq_bool_iff in Hz. destruct Hcase as [Hne | Hpos]; [contradiction|].
    rewrite Hz. rewrite List.Forall_forall in Hpos. now apply Hpos.
  - assert (Htruthy : Js.truthy_num (Retriever.similarityThreshold options) = true).
    { rewrite Ht. cbn. now rewrite Hz. }
    pose proof (filtered_threshold r options results doc Htruthy Hin) as Hge.
    rewrite (unfiltered_prop r results doc "similarityScore" Hun) in Hge; discriminate.
Qed.

Lemma threshold_respected_witness :
  exists docs,
    Retriever.run threeFound Retriever.criminalCodeRetriever "theft"
      (Some (onlyThreshold (1#2))) = Returns docs /\
    Forall (scoreAtLeast (1#2)) docs.
Proof.
  apply (threshold_respected threeFound Retriever.criminalCodeRetriever "theft"
           (onlyThreshold (1#2)) (1#2) threeRows).
  - reflexivity.
  - left. intros H. vm_compute in H. discriminate.
  - reflexivity.
Defined.

(** C4 as stated fails at [t = 0]: the threshold stage is skipped, and
    a passage whose score is below zero stays in the result. *)
Lemma zero_threshold_keeps_negative_score :
  Retriever.similarityThreshold (onlyThreshold 0) = Some 0%Q /\
  Retriever.run oppositeFound Retriever.vectorDbRetriever "theft" (Some (onlyThreshold 0))
    = Returns [fromText "opposite"
                 {[ "metadata" := Js.Object (<["similarityScore" := Js.Num (-1#10)]> ∅) ]}] /\
  ~ scoreAtLeast 0
      (fromText "opposite"
         {[ "metadata" := Js.Object (<["similarityScore" := Js.Num (-1#10)]> ∅) ]}).
Proof.
  split; [reflexivity|]. split; [vm_compute; reflexivity|].
  intros (s & Hs & Hle). rewrite written_fromText, lookup_insert_eq in Hs.
  injection Hs as <-. vm_compute in Hle. now apply Hle.
Qed.




(** C6.  Whatever the options, the result of a retriever is a
    subsequence of the unfiltered search result: passages are dropped,
    never reordered, and their texts follow the order of the rows the
    search returned. *)
Theorem filtering_preserves_order (S : Services) (r : Retriever.Name) (query : string)
    (options : Retriever.Options) (results : list Row) :
  Retriever.search S r query (Js.num_or_else (Retriever.k options) 5) = Returns results ->
  exists docs,
    Retriever.run S r query (Some options) = Returns docs /\
    docs `sublist_of` Retriever.unfiltered r results /\
    map doc_text docs `sublist_of` map row_content results.
Proof.
  intros Hsearch. exists (Retriever.filtered r options results).
  split; [now apply run_returns|]. split; [apply filtered_sublist|].
  rewrite <- (unfiltered_text r results). apply map_sublist, filtered_sublist.
Qed.

Lemma filtering_preserves_order_witness :
  exists docs,
    Retriever.run threeFound Retriever.vectorDbRetriever "theft" (Some (onlyThreshold (1#2)))
      = Returns docs /\
    docs `sublist_of` Retriever.unfiltered Retriever.vectorDbRetriever threeRows /\
    map doc_text docs `sublist_of` map row_content threeRows.
Proof.
  apply (filtering_preserves_order threeFound Retriever.vectorDbRetriever "theft"
           (onlyThreshold (1#2)) threeRows).
  reflexivity.
Defined.

(** ** Scenarios *)

(** A failing search leaves the in-memory table as it was. *)
Example search_error_scenario :
  Flow.autonomousAIFlow searchDown (guest "what is theft" "c1") freshState =
    (addLog freshState
       [Generated (grammarRequest "what is theft");
        Generated (classifierRequest "What is theft?");
        Searched criminal_code "What is theft?" 3],
     Throws "connection refused").
Proof. vm_compute. reflexivity. Qed.

(** For a signed-in user the turns go to the [messages] table, the
    user's with the text as typed, and the in-memory table is not
    touched. *)
Example member_scenario :
  (Flow.autonomousAIFlow theftServices (member "what is theft" "c1" "u1")
     (memberState "c1" "u1")).2 = Returns "Theft is ..." /\
  map (fun m => (message_sender m, message_content m))
    (messages (database (Flow.autonomousAIFlow theftServices
                           (member "what is theft" "c1" "u1") (memberState "c1" "u1")).1))
    = [(user, "what is theft"); (model, "Theft is ...")] /\
  CHAT_HISTORY (Flow.autonomousAIFlow theftServices (member "what is theft" "c1" "u1")
                  (memberState "c1" "u1")).1 = ∅.
Proof. repeat split; vm_compute; reflexivity. Qed.


(** Scores 0.91, 0.77 and 0.40 with a threshold of 0.5: the stage
    reads [similarityScore] from the metadata of the passage, where
    only [metadata] is, and no passage stays. *)
Example threshold_scenario :
  Retriever.run threeFound Retriever.vectorDbRetriever "theft" (Some (onlyThreshold (1#2)))
  = Returns [].
Proof. vm_compute. reflexivity. Qed.

(** An unauthenticated conversation that receives "Hello" and is
    answered "Hi" shows exactly these two messages, in that order. *)
Example history_scenario :
  Flow.autonomousAIFlow helloServices (guest "Hello" "c1") freshState
    = ((Flow.autonomousAIFlow helloServices (guest "Hello" "c1") freshState).1,
       Returns "Hi") /\
  historyOf "c1" (Flow.autonomousAIFlow helloServices (guest "Hello" "c1") freshState).1 =
    [ {| Flow.entry_role := user; Flow.entry_content := "Hello" |};
      {| Flow.entry_role := model; Flow.entry_content := "Hi" |} ].
Proof. split; vm_compute; reflexivity. Qed.

(** * Further properties *)

(** ** The classifier and the grammar pass ([utils/ai.ts]) *)
Section ClassifierMore.
Import Js.
#[local] Arguments String.append !s1 s2 : simpl nomatch.

Lemma documentType_range (c : option string) :
  In (Classifier.documentTypeOfResponse c) documentTypes.
Proof.
  unfold Classifier.documentTypeOfResponse, documentTypes.
  repeat match goal with |- context [if ?b then _ else _] => destruct b end;
    cbn; tauto.
Qed.

(** For a word without white space, what [includes] sees in the
    trimmed lower-case text is an occurrence in any letter case. *)
Lemma includes_word (t n : string) :
  n <> "" -> noWhiteSpace n = true ->
  includes (trim (toLowerCase t)) n = true <-> containsIgnoringCase t n.
Proof.
  intros Hn Hw. rewrite <- includes_toLowerCase. split.
  - apply includes_of_trim.
  - intros H. now apply includes_trim.
Qed.

Lemma includes_word_false (t n : string) :
  n <> "" -> noWhiteSpace n = true ->
  ~ containsIgnoringCase t n -> includes (trim (toLowerCase t)) n = false.
Proof.
  intros Hn Hw H. apply not_true_is_false. intros E. apply H. now apply includes_word.
Qed.

Lemma trim_nonempty_of_word (t n : string) :
  n <> "" -> noWhiteSpace n = true ->
  containsIgnoringCase t n -> truthy (trim (toLowerCase t)) = true.
Proof.
  intros Hn Hw H. apply includes_toLowerCase in H.
  apply includes_trim in H as [_ H]; auto. now apply truthy_true.
Qed.

Lemma allWhiteSpace_trimEnd (w : string) : allWhiteSpace w = true -> trimEnd w = "".
Proof.
  induction w as [|c w IH]; [reflexivity|]. simpl.
  rewrite andb_true_iff. intros [Hc Hw]. now rewrite (IH Hw), Hc.
Qed.

Lemma trimEnd_padding (t w : string) :
  allWhiteSpace w = true -> trimEnd (t +:+ w) = trimEnd t.
Proof.
  intros Hw. induction t as [|c t IH]; simpl.
  - now apply allWhiteSpace_trimEnd.
  - now rewrite IH.
Qed.

Lemma trim_leading (w x : string) :
  allWhiteSpace w = true -> trimStart (trimEnd (w +:+ x)) = trimStart (trimEnd x).
Proof.
  induction w as [|c w IH]; [reflexivity|]. simpl.
  rewrite andb_true_iff. intros [Hc Hw]. specialize (IH Hw).
  destruct (trimEnd (w +:+ x)) eqn:E.
  - rewrite Hc. exact IH.
  - cbn [trimStart]. rewrite Hc. exact IH.
Qed.

Lemma trim_padding (w1 t w2 : string) :
  allWhiteSpace w1 = true -> allWhiteSpace w2 = true ->
  trim (w1 +:+ t +:+ w2) = trim t.
Proof.
  intros H1 H2. unfold trim. rewrite trim_leading by assumption.
  now rewrite trimEnd_padding.
Qed.

End ClassifierMore.

(** X1.  Whenever the classification call answers, [detectDocumentType]
    returns one of the five document types, whatever the model wrote;
    when the call throws, it throws the same error. *)
Theorem classifier_returns_known_type (S : Services) (query : string) (st : State) :
  match (Flow.detectDocumentType S query st).2 with
  | Returns documentType =>
      In documentType documentTypes /\
      exists c, generate S (classifierRequest query) = Returns c
  | Throws e => generate S (classifierRequest query) = Throws e
  end.
Proof.
  rewrite detectDocumentType_run. cbn [snd].
  destruct (generate S (classifierRequest query)) as [c|e]; [|reflexivity].
  split; [apply documentType_range | now exists c].
Qed.

(** X2.  [getDocumentRetriever] selects no retriever exactly when the
    detected type is [none]; for every other type it selects the
    retriever that searches the table of that type. *)
Theorem retriever_matches_document_type (S : Services) (query : string) (st : State)
    (c : option string) :
  generate S (classifierRequest query) = Returns c ->
  exists documentType selected,
    (Flow.detectDocumentType S query st).2 = Returns documentType /\
    (Flow.getDocumentRetriever S query st).2 = Returns selected /\
    match selected with
    | Some r => documentTypeOfTable (Retriever.table r) = documentType
    | None => documentType = "none"
    end.
Proof.
  intros Hgen. rewrite detectDocumentType_run, getDocumentRetriever_run, Hgen.
  cbn [snd]. eexists. eexists. split; [reflexivity|]. split; [reflexivity|].
  pose proof (documentType_range c) as H. unfold documentTypes in H. cbn in H.
  destruct H as [<-|[<-|[<-|[<-|[<-|[]]]]]]; reflexivity.
Qed.

Lemma retriever_matches_document_type_witness :
  exists documentType selected,
    (Flow.detectDocumentType bailServices "How is bail granted?" freshState).2
      = Returns documentType /\
    (Flow.getDocumentRetriever bailServices "How is bail granted?" freshState).2
      = Returns selected /\
    match selected with
    | Some r => documentTypeOfTable (Retriever.table r) = documentType
    | None => documentType = "none"
    end.
Proof.
  apply (retriever_matches_document_type bailServices "How is bail granted?" freshState
           (Some "Criminal Procedure Code")).
  reflexivity.
Defined.

(** X3.  The detected type does not depend on the letter case of the
    response nor on white space around it. *)
Theorem classifier_ignores_case_and_padding (w1 t1 w2 t2 : string) :
  allWhiteSpace w1 = true -> allWhiteSpace w2 = true ->
  Js.toLowerCase t1 = Js.toLowerCase t2 ->
  Classifier.documentTypeOfResponse (Some (w1 +:+ t1 +:+ w2))
  = Classifier.documentTypeOfResponse (Some t2).
Proof.
  intros H1 H2 Hcase. unfold Classifier.documentTypeOfResponse. cbn [option_map].
  rewrite !trim_toLowerCase, (trim_padding w1 t1 w2 H1 H2), <- !trim_toLowerCase.
  now rewrite Hcase.
Qed.

Lemma classifier_ignores_case_and_padding_witness :
  Classifier.documentTypeOfResponse (Some ("  " +:+ "CIVIL" +:+ "
"))
  = Classifier.documentTypeOfResponse (Some "civil").
Proof.
  apply (classifier_ignores_case_and_padding "  " "CIVIL" "
" "civil"); reflexivity.
Defined.

(** X4.  The order of the tests: a response with "criminal" but
    without "procedure" is [criminal], whatever else it holds; without
    "criminal", a response with "civil" is [civil]; without both, a
    response with "constitution" is [constitution]. *)
Theorem classifier_priority (t : string) :
  (containsIgnoringCase t "criminal" -> ~ containsIgnoringCase t "procedure" ->
   Classifier.documentTypeOfResponse (Some t) = "criminal") /\
  (~ containsIgnoringCase t "criminal" -> containsIgnoringCase t "civil" ->
   Classifier.documentTypeOfResponse (Some t) = "civil") /\
  (~ containsIgnoringCase t "criminal" -> ~ containsIgnoringCase t "civil" ->
   containsIgnoringCase t "constitution" ->
   Classifier.documentTypeOfResponse (Some t) = "constitution").
Proof.
  unfold Classifier.documentTypeOfResponse. cbn [option_map Js.opt_or_else]. unfold Js.or_else.
  split; [|split].
  - intros Hc Hp.
    rewrite (trim_nonempty_of_word t "criminal") by (discriminate || reflexivity || assumption).
    rewrite (proj2 (includes_word t "criminal" ltac:(discriminate) eq_refl) Hc).
    rewrite (includes_word_false t "procedure" ltac:(discriminate) eq_refl Hp).
    reflexivity.
  - intros Hc Hv.
    rewrite (trim_nonempty_of_word t "civil") by (discriminate || reflexivity || assumption).
    rewrite (includes_word_false t "criminal" ltac:(discriminate) eq_refl Hc).
    rewrite (proj2 (includes_word t "civil" ltac:(discriminate) eq_refl) Hv).
    reflexivity.
  - intros Hc Hv Hk.
    rewrite (trim_nonempty_of_word t "constitution")
      by (discriminate || reflexivity || assumption).
    rewrite (includes_word_false t "criminal" ltac:(discriminate) eq_refl Hc).
    rewrite (includes_word_false t "civil" ltac:(discriminate) eq_refl Hv).
    rewrite (proj2 (includes_word t "constitution" ltac:(discriminate) eq_refl) Hk).
    reflexivity.
Qed.

Lemma classifier_priority_witness :
  Classifier.documentTypeOfResponse (Some "Criminal or civil code") = "criminal".
Proof.
  apply (classifier_priority "Criminal or civil code").
  - exists "", "Criminal", " or civil code". split; reflexivity.
  - rewrite <- includes_toLowerCase. vm_compute. discriminate.
Defined.

(** X5.  [correctGrammar] hands on the model's text when it is not
    empty and the text it was given otherwise, so a non-empty input
    never becomes empty; an error of the call is not caught. *)
Theorem grammar_pass_keeps_text (S : Services) (text : string) (st : State) :
  match generate S (grammarRequest text) with
  | Returns g =>
      exists refined,
        (Flow.correctGrammar S text st).2 = Returns refined /\
        (Js.truthy_opt g = true -> g = Some refined) /\
        (Js.truthy_opt g = false -> refined = text) /\
        (text <> "" -> refined <> "")
  | Throws e => (Flow.correctGrammar S text st).2 = Throws e
  end.
Proof.
  unfold Flow.correctGrammar, bind. rewrite ai_generate_run.
  fold (grammarRequest text).
  destruct (generate S (grammarRequest text)) as [g|e]; [|reflexivity].
  cbn [ret snd]. eexists. split; [reflexivity|].
  destruct g as [r|]; cbn; unfold Js.or_else.
  - destruct (Js.truthy r) eqn:E; repeat split; try discriminate; auto.
    intros _. now apply truthy_true.
  - repeat split; try discriminate; auto.
Qed.

(** ** The retrievers ([tools/retriever.ts]) *)
Section RetrieverMore.
Import Js.
Variable S : Services.

Lemma unfiltered_converted (r : Retriever.Name) (results : list Row) (doc : Document) :
  In doc (Retriever.unfiltered r results) ->
  exists row, In row results /\ convertedFrom r row doc.
Proof.
  intros H.
  apply unfiltered_shape in H as (row & fields & Hrow & -> & Hscore & Hpage & Hkeys).
  exists row. split; [exact Hrow|]. unfold convertedFrom.
  rewrite written_fromText. cbn [doc_text doc_metadata]. eauto 10.
Qed.

Lemma truthy_num_Some (t : Q) : truthy_num (Some t) = true <-> ~ (t == 0)%Q.
Proof.
  cbn. rewrite negb_true_iff. split.
  - intros H E. apply Qeq_bool_iff in E. congruence.
  - intros H. apply not_true_is_false. intros E. now apply Qeq_bool_iff in E.
Qed.






Lemma filter_sublist_impl {A} (f g : A -> bool) (l : list A) :
  (forall x, f x = true -> g x = true) -> List.filter f l `sublist_of` List.filter g l.
Proof.
  intros H. induction l as [|x l IH]; cbn; [constructor|].
  destruct (f x) eqn:E.
  - rewrite (H x E). now constructor.
  - destruct (g x); [now constructor | exact IH].
Qed.

Lemma filter_sublist_mono {A} (f : A -> bool) (l1 l2 : list A) :
  l1 `sublist_of` l2 -> List.filter f l1 `sublist_of` List.filter f l2.
Proof.
  induction 1 as [|x l1 l2 _ IH|x l1 l2 _ IH]; cbn; [constructor| |].
  - destruct (f x); [now constructor | exact IH].
  - destruct (f x); [now constructor | exact IH].
Qed.

Lemma geNumber_mono (v : Value) (t1 t2 : Q) :
  (t1 <= t2)%Q -> Retriever.geNumber v t2 = true -> Retriever.geNumber v t1 = true.
Proof.
  intros Hle. destruct v; cbn; try discriminate; rewrite !Qle_bool_iff; intros H;
    eapply Qle_trans; eauto.
Qed.

Lemma applyThreshold_mono (t1 t2 : Q) (options : Retriever.Options)
    (documents : list Document) :
  (0 <= t1)%Q -> (t1 <= t2)%Q ->
  Retriever.applyThreshold (withThreshold t2 options) documents
  `sublist_of` Retriever.applyThreshold (withThreshold t1 options) documents.
Proof.
  intros H0 Hle. unfold Retriever.applyThreshold.
  cbn [Retriever.similarityThreshold withThreshold default from_option id].
  destruct (truthy_num (Some t2)) eqn:E2; destruct (truthy_num (Some t1)) eqn:E1.
  - apply filter_sublist_impl. intros d. now apply geNumber_mono.
  - apply filter_sublist.
  - exfalso. apply truthy_num_Some in E1. apply E1.
    cbn in E2. apply negb_false_iff, Qeq_bool_iff in E2. rewrite E2 in Hle.
    now apply Qle_antisym.
  - reflexivity.
Qed.

End RetrieverMore.



(** X7.  Retrievals that cannot return.  Without options the search is
    made with the limit 5; its error is passed on, and when it answers
    the retriever throws on reading [options.similarityThreshold].
    Options whose threshold is below 0 or above 1 are refused by the
    schema before anything is searched. *)
Theorem retrieval_refused (S : Services) (r : Retriever.Name) (query : string)
    (st : State) :
  (exists e,
     ai_retrieve S r query None st
     = (addLog st [Searched (Retriever.table r) query 5], Throws e) /\
     Retriever.run S r query None = Throws e /\
     forall e', Retriever.search S r query 5 = Throws e' -> e = e') /\
  (forall options t,
     Retriever.similarityThreshold options = Some t -> (t < 0)%Q \/ (1 < t)%Q ->
     exists e, ai_retrieve S r query (Some options) st = (st, Throws e)).
Proof.
  split.
  - rewrite (ai_retrieve_run S r query None st eq_refl). unfold Retriever.run.
    change (Retriever.limitOf None) with 5%Q.
    destruct (Retriever.search S r query 5) as [results|e].
    + eexists. split; [reflexivity|]. split; [reflexivity | discriminate].
    + exists e. split; [reflexivity|]. split; [reflexivity | now intros e' [= <-]].
  - intros options t Ht Hout. unfold ai_retrieve, Retriever.configSchema. rewrite Ht.
    assert (Hno : Qle_bool 0 t && Qle_bool t 1 = false).
    { apply andb_false_iff. destruct Hout as [Hlt | Hlt]; [left | right];
        apply not_true_is_false; intros H; apply Qle_bool_iff in H;
        now apply Qlt_not_le in Hlt. }
    rewrite Hno. eexists. reflexivity.
Qed.

(** X9.  Raising the threshold only removes passages: for thresholds
    [0 <= t1 <= t2] and otherwise equal options, the result for [t2]
    is a subsequence of the result for [t1]. *)
Theorem threshold_monotone (r : Retriever.Name) (options : Retriever.Options)
    (t1 t2 : Q) (results : list Row) :
  (0 <= t1)%Q -> (t1 <= t2)%Q ->
  Retriever.filtered r (withThreshold t2 options) results
  `sublist_of` Retriever.filtered r (withThreshold t1 options) results.
Proof.
  intros H0 Hle.
  pose proof (fun docs => applyThreshold_mono t1 t2 options docs H0 Hle) as Hmono.
  destruct r; cbn [Retriever.filtered];
    unfold Retriever.vectorDbFilter, Retriever.codeFilter; cbn zeta;
    cbn [Retriever.metadataFilter Retriever.pageFilter withThreshold].
  - destruct (Retriever.metadataFilter options);
      [apply filter_sublist_mono|]; apply Hmono.
  - destruct (Js.truthy_num (Retriever.pageFilter options));
      [apply filter_sublist_mono|]; apply Hmono.
  - destruct (Js.truthy_num (Retriever.pageFilter options));
      [apply filter_sublist_mono|]; apply Hmono.
  - destruct (Js.truthy_num (Retriever.pageFilter options));
      [apply filter_sublist_mono|]; apply Hmono.
Qed.

Lemma threshold_monotone_witness :
  Retriever.filtered Retriever.vectorDbRetriever
    (withThreshold (8#10) (onlyThreshold 0)) threeRows
  `sublist_of`
  Retriever.filtered Retriever.vectorDbRetriever
    (withThreshold (1#2) (onlyThreshold 0)) threeRows.
Proof.
  apply (threshold_monotone Retriever.vectorDbRetriever (onlyThreshold 0) (1#2) (8#10)
           threeRows).
  - intros H. vm_compute in H. discriminate.
  - intros H. vm_compute in H. discriminate.
Defined.

(** X10.  The outcome of a retriever that is given options is the
    outcome of its search: an error of the search is the error of the
    retriever, and when the search answers the retriever returns, with
    no more passages than the search found rows; an empty search
    gives an empty result. *)
Theorem retriever_result_bounded (S : Services) (r : Retriever.Name) (query : string)
    (options : Retriever.Options) :
  match Retriever.search S r query (Js.num_or_else (Retriever.k options) 5) with
  | Returns results =>
      exists docs,
        Retriever.run S r query (Some options) = Returns docs /\
        length docs <= length results /\
        (results = [] -> docs = [])
  | Throws e => Retriever.run S r query (Some options) = Throws e
  end.
Proof.
  destruct (Retriever.search S r query _) as [results|e] eqn:Hsearch.
  - exists (Retriever.filtered r options results).
    split; [now apply run_returns|].
    pose proof (filtered_sublist r options results) as Hsub.
    assert (Hlen : length (Retriever.unfiltered r results) = length results).
    { rewrite <- (length_map doc_text), unfiltered_text. apply length_map. }
    split.
    + rewrite <- Hlen. now apply sublist_length.
    + intros ->. destruct r; cbn in Hsub; now apply sublist_nil_r in Hsub.
  - unfold Retriever.run.
    change (Retriever.limitOf (Some options))
      with (Js.num_or_else (Retriever.k options) 5).
    now rewrite Hsearch.
Qed.

(** X11.  Every passage returned is the conversion of a row the search
    returned: it has the text of the row, and its metadata has the one
    property [metadata], an object with the stored metadata of the
    row in which [similarityScore] (and [pageNumber], for the code
    tables) are the ones of the row even when the stored metadata has
    keys of these names. *)
Theorem passages_come_from_rows (S : Services) (r : Retriever.Name) (query : string)
    (options : Retriever.Options) (results : list Row) :
  Retriever.search S r query (Js.num_or_else (Retriever.k options) 5) = Returns results ->
  exists docs,
    Retriever.run S r query (Some options) = Returns docs /\
    Forall (fun doc => exists row, In row results /\ convertedFrom r row doc) docs.
Proof.
  intros Hsearch. exists (Retriever.filtered r options results).
  split; [now apply run_returns|].
  apply List.Forall_forall. intros doc Hin. apply unfiltered_converted.
  eapply sublist_In; [apply filtered_sublist | exact Hin].
Qed.

Lemma passages_come_from_rows_witness :
  exists docs,
    Retriever.run chaptersFound Retriever.criminalCodeRetriever "theft"
      (Some Flow.flowOptions) = Returns docs /\
    Forall (fun doc => exists row,
              In row [chapterRow "Section 1" "1" (9#10); chapterRow "Section 40" "2" (8#10)] /\
              convertedFrom Retriever.criminalCodeRetriever row doc) docs.
Proof.
  apply (passages_come_from_rows chaptersFound Retriever.criminalCodeRetriever "theft"
           Flow.flowOptions
           [chapterRow "Section 1" "1" (9#10); chapterRow "Section 40" "2" (8#10)]).
  reflexivity.
Defined.

(** ** The generated text ([index.ts]) *)

(** X8.  In the current flow, when the generation call of a request
    returns an empty (or absent) text, the flow returns the sentence
    "No response generated."; and whatever happens it never returns
    the empty string. *)
Theorem empty_generation_gives_fallback (S : Services) (input : Flow.Input) (st : State)
    (request : GenerateRequest) (response : option string) :
  lastCall (Flow.autonomousAIFlow S input st).1 = Some (Generated request) ->
  req_system request = assistantPrompt ->
  generate S request = Returns response ->
  Js.truthy_opt response = false ->
  (Flow.autonomousAIFlow S input st).2 = Returns "No response generated." /\
  (Flow.autonomousAIFlow S input st).2 <> Returns "".
Proof.
  intros Hlast Hsys Hgen Hempty. split; [|apply flow_result_nonempty].
  rewrite (flow_result_of_generation S input st request Hlast Hsys), Hgen.
  now rewrite (opt_or_else_falsy response _ Hempty).
Qed.

Lemma empty_generation_gives_fallback_witness :
  (Flow.autonomousAIFlow generationSilent (guest "what is theft" "c1") freshState).2
    = Returns "No response generated." /\
  (Flow.autonomousAIFlow generationSilent (guest "what is theft" "c1") freshState).2
    <> Returns "".
Proof.
  apply (empty_generation_gives_fallback generationSilent (guest "what is theft" "c1")
           freshState
           (assistantRequest (guest "what is theft" "c1") "What is theft?"
              (Retriever.filtered Retriever.criminalCodeRetriever Flow.flowOptions
                 [sampleRow "Section 241" 120 (9#10)])
              [Flow.turn user "what is theft"])
           (Some "")).
  - vm_compute. reflexivity.
  - reflexivity.
  - reflexivity.
  - reflexivity.
Defined.

(** ** The flow and the in-memory history ([index.ts]) *)
Section FlowMore.
Import Js.
Variable S : Services.

(** The in-memory table after a request of a signed-in user. *)
Lemma afterRetrieval_authenticated_memory (input : Flow.Input) (refined : string)
    (docs : list Document) (st : State) :
  Flow.authenticated input = true ->
  let id := Flow.chatroomId input in
  let request := assistantRequest input refined docs [] in
  let st' := (afterRetrieval S input refined docs st).1 in
  lastCall st' = Some (Generated request) /\
  (afterRetrieval S input refined docs st).2 =
    match generate S request with
    | Throws e => Throws e
    | Returns response => Returns (opt_or_else response "No response generated.")
    end /\
  CHAT_HISTORY st' =
    match generate S request with
    | Returns response =>
        if truthy_opt response then CHAT_HISTORY st
        else <[id := (default [] (CHAT_HISTORY st !! id) ++ [Flow.turn model ""])%list]>
               (CHAT_HISTORY st)
    | Throws _ => CHAT_HISTORY st
    end.
Proof.
  intros Hauth id request st'. unfold st'. clear st'.
  destruct (afterRetrieval_authenticated S input refined docs st Hauth)
    as (st1 & st2 & (Hh1 & _) & -> & Hlog & Hcase).
  cbn [fst snd]. fold request in Hlog, Hcase |- *.
  split; [unfold lastCall; rewrite Hlog; apply last_snoc|]. split; [reflexivity|].
  destruct (generate S request) as [response|e].
  - destruct (truthy_opt response).
    + destruct Hcase as (-> & _). cbn. exact Hh1.
    + now destruct Hcase as (_ & ->).
  - subst st2. cbn. exact Hh1.
Qed.

Lemma insert_twice (id : string) (a b : list ChatInterface)
    (m : gmap string (list ChatInterface)) :
  <[id := b]> (<[id := a]> m) = <[id := b]> m.
Proof. apply insert_insert_eq. Qed.

End FlowMore.

(** X12.  A request on the unauthenticated path that returns has
    asked the model with the earlier turns of the conversation
    followed by the new user turn, returns the model's text (or the
    fixed sentence), and leaves the conversation longer by exactly the
    user's turn and the model's turn, which [getChatHistory] then shows
    in that order. *)
Theorem guest_request_appends_exchange (S : Services) (input : Flow.Input)
    (st st' : State) (out : string) :
  let id := Flow.chatroomId input in
  let before := default [] (CHAT_HISTORY st !! id) in
  Flow.authenticated input = false ->
  Flow.autonomousAIFlow S input st = (st', Returns out) ->
  exists request reply,
    lastCall st' = Some (Generated request) /\
    generate S request = Returns reply /\
    req_messages request
      = (if Js.truthy_opt (Flow.userId input) then []
         else before ++ [Flow.turn user (Flow.input_text input)])%list /\
    out = Js.opt_or_else reply "No response generated." /\
    CHAT_HISTORY st' =
      <[id := (before ++ [Flow.turn user (Flow.input_text input);
                          Flow.turn model (Js.opt_or_else reply "")])%list]>
        (CHAT_HISTORY st) /\
    historyOf id st' =
      (historyOf id st
       ++ [ {| Flow.entry_role := user; Flow.entry_content := Flow.input_text input |};
            {| Flow.entry_role := model; Flow.entry_content := Js.opt_or_else reply "" |} ])%list.
Proof.
  intros id before Hauth. rewrite flow_stages.
  destruct (retrievalStages S (Flow.input_text input)) as [events [[refined docs]|e']];
    [|discriminate].
  rewrite (afterRetrieval_unauthenticated S input refined docs _ Hauth).
  cbn [CHAT_HISTORY addLog log database queries]. fold id. fold before.
  set (asked := (before ++ [Flow.turn user (Flow.input_text input)])%list).
  set (request := assistantRequest input refined docs asked).
  destruct (generate S request) as [reply|e] eqn:Hgen; [|discriminate].
  intros [= <- <-]. exists request, reply.
  split; [unfold lastCall; cbn [log]; apply last_snoc|].
  split; [exact Hgen|]. split; [reflexivity|]. split; [reflexivity|].
  cbn [CHAT_HISTORY]. rewrite insert_twice. unfold asked. rewrite <- app_assoc.
  split; [reflexivity|].
  unfold historyOf, Flow.getChatHistory, history_get, bind, ret.
  cbn [fst snd CHAT_HISTORY]. rewrite lookup_insert_eq, default_Some. fold before.
  now rewrite map_app.
Qed.

Lemma guest_request_appends_exchange_witness :
  exists request reply,
    lastCall (Flow.autonomousAIFlow helloServices (guest "Hello" "c1") freshState).1
      = Some (Generated request) /\
    generate helloServices request = Returns reply /\
    req_messages request
      = (if Js.truthy_opt (Flow.userId (guest "Hello" "c1")) then []
         else default [] (CHAT_HISTORY freshState !! "c1") ++ [Flow.turn user "Hello"])%list /\
    "Hi" = Js.opt_or_else reply "No response generated." /\
    CHAT_HISTORY (Flow.autonomousAIFlow helloServices (guest "Hello" "c1") freshState).1 =
      <["c1" := (default [] (CHAT_HISTORY freshState !! "c1")
                 ++ [Flow.turn user "Hello"; Flow.turn model (Js.opt_or_else reply "")])%list]>
        (CHAT_HISTORY freshState) /\
    historyOf "c1" (Flow.autonomousAIFlow helloServices (guest "Hello" "c1") freshState).1 =
      (historyOf "c1" freshState
       ++ [ {| Flow.entry_role := user; Flow.entry_content := "Hello" |};
            {| Flow.entry_role := model; Flow.entry_content := Js.opt_or_else reply "" |} ])%list.
Proof.
  apply (guest_request_appends_exchange helloServices (guest "Hello" "c1") freshState
           (Flow.autonomousAIFlow helloServices (guest "Hello" "c1") freshState).1 "Hi").
  - reflexivity.
  - vm_compute. reflexivity.
Defined.

(** X13.  Whatever its path and outcome, a request leaves the history
    of every other conversation identifier as it was. *)
Theorem other_conversations_untouched (S : Services) (input : Flow.Input) (st : State)
    (other : string) :
  other <> Flow.chatroomId input ->
  CHAT_HISTORY (Flow.autonomousAIFlow S input st).1 !! other = CHAT_HISTORY st !! other.
Proof.
  intros Hne. rewrite flow_stages.
  destruct (retrievalStages S (Flow.input_text input)) as [events [[refined docs]|e']];
    [|reflexivity].
  destruct (Flow.authenticated input) eqn:Hauth.
  - destruct (afterRetrieval_authenticated_memory S input refined docs (addLog st events) Hauth)
      as (_ & _ & ->).
    cbn [CHAT_HISTORY addLog].
    destruct (generate S _) as [response|e]; [|reflexivity].
    destruct (Js.truthy_opt response); [reflexivity|].
    now rewrite lookup_insert_ne by congruence.
  - rewrite (afterRetrieval_unauthenticated S input refined docs _ Hauth).
    cbn [CHAT_HISTORY addLog].
    destruct (generate S _) as [response|e]; cbn [fst CHAT_HISTORY];
      now rewrite !lookup_insert_ne by congruence.
Qed.

Lemma other_conversations_untouched_witness :
  CHAT_HISTORY (Flow.autonomousAIFlow helloServices (guest "Hello" "c1") freshState).1 !! "c2"
  = CHAT_HISTORY freshState !! "c2".
Proof.
  apply (other_conversations_untouched helloServices (guest "Hello" "c1") freshState "c2").
  discriminate.
Defined.

(** X14.  A request on the unauthenticated path sends no query to the
    chat database and leaves its tables as they were, whatever its
    outcome. *)
Theorem guest_request_skips_database (S : Services) (input : Flow.Input) (st : State) :
  Flow.authenticated input = false ->
  database (Flow.autonomousAIFlow S input st).1 = database st /\
  queries (Flow.autonomousAIFlow S input st).1 = queries st.
Proof.
  intros Hauth. rewrite flow_stages.
  destruct (retrievalStages S (Flow.input_text input)) as [events [[refined docs]|e']];
    [|split; reflexivity].
  rewrite (afterRetrieval_unauthenticated S input refined docs _ Hauth).
  destruct (generate S _); split; reflexivity.
Qed.

Lemma guest_request_skips_database_witness :
  database (Flow.autonomousAIFlow theftServices (guest "what is theft" "c1") freshState).1
    = database freshState /\
  queries (Flow.autonomousAIFlow theftServices (guest "what is theft" "c1") freshState).1
    = queries freshState.
Proof.
  apply (guest_request_skips_database theftServices (guest "what is theft" "c1") freshState).
  reflexivity.
Defined.

(** X15.  For a signed-in user the in-memory table is left alone when
    the request fails or the model answers with a non-empty text; but
    when the model's text is empty, a model turn with the empty text is
    appended to the in-memory conversation of that identifier. *)
Theorem signed_in_request_memory (S : Services) (input : Flow.Input) (st : State) :
  let id := Flow.chatroomId input in
  let st' := (Flow.autonomousAIFlow S input st).1 in
  Flow.authenticated input = true ->
  match (Flow.autonomousAIFlow S input st).2 with
  | Throws _ => CHAT_HISTORY st' = CHAT_HISTORY st
  | Returns out =>
      exists request reply,
        lastCall st' = Some (Generated request) /\
        generate S request = Returns reply /\
        out = Js.opt_or_else reply "No response generated." /\
        CHAT_HISTORY st' =
          if Js.truthy_opt reply then CHAT_HISTORY st
          else <[id := (default [] (CHAT_HISTORY st !! id) ++ [Flow.turn model ""])%list]>
                 (CHAT_HISTORY st)
  end.
Proof.
  intros id st' Hauth. unfold st'. clear st'. rewrite flow_stages.
  destruct (retrievalStages S (Flow.input_text input)) as [events [[refined docs]|e']];
    [|reflexivity].
  destruct (afterRetrieval_authenticated_memory S input refined docs (addLog st events) Hauth)
    as (Hlast & -> & ->).
  cbn [CHAT_HISTORY addLog]. fold id.
  destruct (generate S (assistantRequest input refined docs [])) as [reply|e] eqn:Hgen;
    [|reflexivity].
  exists (assistantRequest input refined docs []), reply. auto.
Qed.

Lemma signed_in_request_memory_witness :
  match (Flow.autonomousAIFlow generationSilent (member "what is theft" "c1" "u1")
           (memberState "c1" "u1")).2 with
  | Throws _ =>
      CHAT_HISTORY (Flow.autonomousAIFlow generationSilent (member "what is theft" "c1" "u1")
                      (memberState "c1" "u1")).1 = CHAT_HISTORY (memberState "c1" "u1")
  | Returns out =>
      exists request reply,
        lastCall (Flow.autonomousAIFlow generationSilent (member "what is theft" "c1" "u1")
                    (memberState "c1" "u1")).1 = Some (Generated request) /\
        generate generationSilent request = Returns reply /\
        out = Js.opt_or_else reply "No response generated." /\
        CHAT_HISTORY (Flow.autonomousAIFlow generationSilent (member "what is theft" "c1" "u1")
                        (memberState "c1" "u1")).1 =
          if Js.truthy_opt reply then CHAT_HISTORY (memberState "c1" "u1")
          else <["c1" := (default [] (CHAT_HISTORY (memberState "c1" "u1") !! "c1")
                          ++ [Flow.turn model ""])%list]>
                 (CHAT_HISTORY (memberState "c1" "u1"))
  end.
Proof.
  apply (signed_in_request_memory generationSilent (member "what is theft" "c1" "u1")
           (memberState "c1" "u1")).
  reflexivity.
Defined.

(** X16.  For a signed-in user the result of a request is decided by
    the model and the search index alone: two runs whose services
    answer alike return or throw alike, whatever the chat database
    holds and whichever of its queries fail. *)
Theorem chat_store_cannot_fail_request (S S' : Services) (input : Flow.Input)
    (st st' : State) :
  Flow.authenticated input = true ->
  (forall request, generate S request = generate S' request) ->
  (forall t query limit, searchDb S t query limit = searchDb S' t query limit) ->
  (Flow.autonomousAIFlow S input st).2 = (Flow.autonomousAIFlow S' input st').2.
Proof.
  intros Hauth Hgen Hsearch.
  assert (Hstages : retrievalStages S (Flow.input_text input)
                    = retrievalStages S' (Flow.input_text input)).
  { unfold retrievalStages. rewrite <- Hgen.
    destruct (generate S (grammarRequest _)) as [g|e]; [|reflexivity].
    rewrite <- Hgen. destruct (generate S (classifierRequest _)) as [c|e]; [|reflexivity].
    destruct (Flow.retrieverOfDocumentType _) as [r|]; [|reflexivity].
    assert (Hr : forall query limit,
              Retriever.search S r query limit = Retriever.search S' r query limit).
    { intros query limit. destruct r; apply Hsearch. }
    now rewrite Hr. }
  rewrite !flow_stages, <- Hstages.
  destruct (retrievalStages S (Flow.input_text input)) as [events [[refined docs]|e']];
    [|reflexivity].
  destruct (afterRetrieval_authenticated_memory S input refined docs (addLog st events) Hauth)
    as (_ & -> & _).
  destruct (afterRetrieval_authenticated_memory S' input refined docs (addLog st' events) Hauth)
    as (_ & -> & _).
  now rewrite Hgen.
Qed.

Lemma chat_store_cannot_fail_request_witness :
  (Flow.autonomousAIFlow theftServices (member "what is theft" "c1" "u1")
     (memberState "c1" "u1")).2
  = (Flow.autonomousAIFlow storeDown (member "what is theft" "c1" "u1") newcomerState).2.
Proof.
  apply (chat_store_cannot_fail_request theftServices storeDown
           (member "what is theft" "c1" "u1") (memberState "c1" "u1") newcomerState);
    reflexivity.
Defined.

(** X17.  When the chat named by a signed-in request is the user's
    and no query of the chat database fails, a request that returns
    has written the user's message with the text as received, then the
    model's message if its text is not empty, both under that chat,
    and has left the [chats] table as it was. *)
Theorem signed_in_request_stores_exchange (S : Services) (input : Flow.Input)
    (st st' : State) (out : string) (c : Chat) :
  let id := Flow.chatroomId input in
  let uid := default "" (Flow.userId input) in
  Flow.authenticated input = true ->
  (forall n, dbFault S n = false) ->
  List.find (ownedBy id uid) (chats (database st)) = Some c ->
  Flow.autonomousAIFlow S input st = (st', Returns out) ->
  exists (reply : option string) (rows : list Message),
    out = Js.opt_or_else reply "No response generated." /\
    chats (database st') = chats (database st) /\
    messages (database st') = (messages (database st) ++ rows)%list /\
    map rowView rows =
      (id, user, Flow.input_text input)
      :: (if Js.truthy_opt reply then [(id, model, default "" reply)] else []).
Proof.
  intros id uid Hauth Hfault Hfind. rewrite flow_stages.
  destruct (retrievalStages S (Flow.input_text input)) as [events [[refined docs]|e']];
    [|discriminate].
  rewrite (afterRetrieval_authenticated_steps S input refined docs _ Hauth).
  destruct (saveUserMessage_ok S input refined (addLog st events) c Hfault Hfind)
    as (m1 & st1 & Hrun & Hm1 & Hdb1 & _ & _).
  rewrite Hrun. cbn [fst]. cbn [database addLog] in Hdb1.
  destruct (generate S _) as [reply|e]; [|discriminate].
  intros [= <- <-]. exists reply.
  destruct (Js.truthy_opt reply).
  - assert (Hfind2 : List.find (ownedBy id uid)
                       (chats (database (addLog st1 [Generated
                          (assistantRequest input refined docs [])]))) = Some c).
    { cbn [database addLog]. now rewrite Hdb1. }
    destruct (saveModelMessage_ok S input (default "" reply) _ c Hfault Hfind2)
      as (m2 & st2 & -> & Hm2 & Hdb2 & _ & _).
    cbn [fst]. cbn [database addLog] in Hdb2. exists [m1; m2].
    rewrite Hdb2, Hdb1. cbn [chats messages map]. rewrite Hm1, Hm2, <- app_assoc.
    repeat split.
  - exists [m1]. unfold Flow.appendTurn, history_get, history_set, bind.
    cbn [fst database addLog]. rewrite Hdb1. cbn [chats messages map]. rewrite Hm1.
    repeat split.
Qed.

Lemma signed_in_request_stores_exchange_witness :
  exists (reply : option string) (rows : list Message),
    "Theft is ..." = Js.opt_or_else reply "No response generated." /\
    chats (database (Flow.autonomousAIFlow theftServices (member "what is theft" "c1" "u1")
                       (memberState "c1" "u1")).1)
      = chats (database (memberState "c1" "u1")) /\
    messages (database (Flow.autonomousAIFlow theftServices
                          (member "what is theft" "c1" "u1") (memberState "c1" "u1")).1)
      = (messages (database (memberState "c1" "u1")) ++ rows)%list /\
    map rowView rows =
      ("c1", user, "what is theft")
      :: (if Js.truthy_opt reply then [("c1", model, default "" reply)] else []).
Proof.
  apply (signed_in_request_stores_exchange theftServices (member "what is theft" "c1" "u1")
           (memberState "c1" "u1")
           (Flow.autonomousAIFlow theftServices (member "what is theft" "c1" "u1")
              (memberState "c1" "u1")).1
           "Theft is ..."
           {| chat_id := "c1"; chat_user_id := "u1"; chat_title := None |}).
  - reflexivity.
  - reflexivity.
  - reflexivity.
  - vm_compute. reflexivity.
Defined.

(** X18.  When a signed-in request names a chat that is not the
    user's (or does not exist) and the database gives new chats other
    identifiers, no message of the request is written, whatever else
    happens: at most a new chat of the user appears, which the
    messages are not attached to.  If no query fails and the request
    returns, that chat has been created. *)
Theorem missing_chat_loses_messages (S : Services) (input : Flow.Input) (st : State) :
  let id := Flow.chatroomId input in
  let uid := default "" (Flow.userId input) in
  let st' := (Flow.autonomousAIFlow S input st).1 in
  let created :=
    exists c, chats (database st') = (chats (database st) ++ [c])%list /\
              chat_user_id c = uid /\ chat_id c <> id in
  Flow.authenticated input = true ->
  (forall n, newId S n <> id) ->
  List.find (ownedBy id uid) (chats (database st)) = None ->
  messages (database st') = messages (database st) /\
  (chats (database st') = chats (database st) \/ created) /\
  ((forall n, dbFault S n = false) ->
   (exists out, (Flow.autonomousAIFlow S input st).2 = Returns out) -> created).
Proof.
  intros id uid st' created Hauth Hid Hfind. unfold created, st'. clear created st'.
  rewrite flow_stages.
  destruct (retrievalStages S (Flow.input_text input)) as [events [[refined docs]|e']].
  2:{ cbn [fst snd database addLog]. split; [reflexivity|]. split; [now left|].
      intros _ [out H]. discriminate. }
  rewrite (afterRetrieval_authenticated_steps S input refined docs _ Hauth).
  destruct (saveUserMessage_missing S input refined (addLog st events) Hid Hfind)
    as (st1 & Hrun & Hmsg & _ & _ & Hfind1 & Hchats).
  rewrite Hrun. cbn [fst]. cbn [database addLog queries] in Hmsg, Hchats.
  set (st2 := addLog st1 [Generated (assistantRequest input refined docs [])]).
  assert (Hdb : forall final, database final = database st1 ->
    messages (database final) = messages (database st) /\
    (chats (database final) = chats (database st) \/
     exists c, chats (database final) = (chats (database st) ++ [c])%list /\
               chat_user_id c = uid /\ chat_id c <> id) /\
    ((forall n, dbFault S n = false) ->
     exists c, chats (database final) = (chats (database st) ++ [c])%list /\
               chat_user_id c = uid /\ chat_id c <> id)).
  { intros final ->. split; [exact Hmsg|].
    assert (Hnew : dbFault S (queries st) = false /\
                   dbFault S (Datatypes.S (queries st)) = false /\
                   chats (database st1) =
                     (chats (database st)
                      ++ [ {| chat_id := newId S (Datatypes.S (queries st));
                              chat_user_id := uid;
                              chat_title := Some (substring 0 50 refined +:+ "...") |} ])%list ->
                   exists c, chats (database st1) = (chats (database st) ++ [c])%list /\
                             chat_user_id c = uid /\ chat_id c <> id).
    { intros (_ & _ & ->). eexists. split; [reflexivity|]. split; [reflexivity|]. apply Hid. }
    split.
    - destruct Hchats as [Hsame | Hc]; [now left | right; now apply Hnew].
    - intros Hfault. destruct Hchats as [Hsame | Hc]; [|now apply Hnew].
      exfalso. clear Hnew.
      unfold saveUserMessage in Hrun. cbn zeta in Hrun. unfold tryCatch in Hrun.
      unfold bind at 1 in Hrun. rewrite getChatById_run, Hfault in Hrun.
      cbn [database addLog] in Hrun. fold id uid in Hrun. rewrite Hfind in Hrun.
      unfold bind at 1 in Hrun. unfold bind at 1 in Hrun.
      rewrite createChat_run, Hfault in Hrun. cbn zeta in Hrun. cbn [ret] in Hrun.
      unfold bind at 1 in Hrun. rewrite addMessage_missing in Hrun.
      + injection Hrun as <-. cbn [database chats afterQuery addLog] in Hsame.
        apply (f_equal (@length Chat)) in Hsame. rewrite length_app in Hsame.
        cbn in Hsame. lia.
      + cbn [database chats afterQuery addLog].
        apply find_ownedBy_snoc; [exact Hfind | apply Hid]. }
  destruct (generate S _) as [reply|e].
  - cbn [fst snd]. destruct (Js.truthy_opt reply).
    + rewrite saveModelMessage_missing by exact Hfind1. cbn [fst].
      destruct (Hdb (afterQuery st2) eq_refl) as (H1 & H2 & H3).
      split; [exact H1|]. split; [exact H2|]. intros Hfault _. now apply H3.
    + unfold Flow.appendTurn, history_get, history_set, bind. cbn [fst].
      match goal with |- context [database ?f] =>
        destruct (Hdb f eq_refl) as (H1 & H2 & H3) end.
      split; [exact H1|]. split; [exact H2|]. intros Hfault _. now apply H3.
  - cbn [fst snd]. destruct (Hdb st2 eq_refl) as (H1 & H2 & H3).
    split; [exact H1|]. split; [exact H2|]. intros _ [out H]. discriminate.
Qed.

Lemma missing_chat_loses_messages_witness :
  messages (database (Flow.autonomousAIFlow theftServices (member "what is theft" "c1" "u1")
                        newcomerState).1)
    = messages (database newcomerState) /\
  (chats (database (Flow.autonomousAIFlow theftServices (member "what is theft" "c1" "u1")
                      newcomerState).1) = chats (database newcomerState) \/
   exists c,
     chats (database (Flow.autonomousAIFlow theftServices (member "what is theft" "c1" "u1")
                        newcomerState).1) = (chats (database newcomerState) ++ [c])%list /\
     chat_user_id c = default "" (Flow.userId (member "what is theft" "c1" "u1")) /\
     chat_id c <> Flow.chatroomId (member "what is theft" "c1" "u1")) /\
  ((forall n, dbFault theftServices n = false) ->
   (exists out,
      (Flow.autonomousAIFlow theftServices (member "what is theft" "c1" "u1")
         newcomerState).2 = Returns out) ->
   exists c,
     chats (database (Flow.autonomousAIFlow theftServices (member "what is theft" "c1" "u1")
                        newcomerState).1) = (chats (database newcomerState) ++ [c])%list /\
     chat_user_id c = default "" (Flow.userId (member "what is theft" "c1" "u1")) /\
     chat_id c <> Flow.chatroomId (member "what is theft" "c1" "u1")).
Proof.
  apply (missing_chat_loses_messages theftServices (member "what is theft" "c1" "u1")
           newcomerState).
  - reflexivity.
  - intros n. discriminate.
  - reflexivity.
Defined.

(** X19.  A request never leaves an empty conversation in the
    in-memory table: if no conversation was empty before, none is
    after, whatever the path and the outcome. *)
Theorem conversations_stay_nonempty (S : Services) (input : Flow.Input) (st : State) :
  noEmptyConversation st ->
  noEmptyConversation (Flow.autonomousAIFlow S input st).1.
Proof.
  intros Hinv.
  assert (Hins : forall (turns : list ChatInterface) (t : ChatInterface)
                        (m : gmap string (list ChatInterface)),
            (forall id l, m !! id = Some l -> l <> []) ->
            forall id l, <[Flow.chatroomId input := (turns ++ [t])%list]> m !! id = Some l ->
                         l <> []).
  { intros turns t m Hm id l. destruct (decide (Flow.chatroomId input = id)) as [<-|Hne].
    - rewrite lookup_insert_eq. intros [= <-]. now destruct turns.
    - rewrite lookup_insert_ne by exact Hne. apply Hm. }
  unfold noEmptyConversation. rewrite flow_stages.
  destruct (retrievalStages S (Flow.input_text input)) as [events [[refined docs]|e']];
    [|exact Hinv].
  destruct (Flow.authenticated input) eqn:Hauth.
  - destruct (afterRetrieval_authenticated_memory S input refined docs (addLog st events) Hauth)
      as (_ & _ & ->).
    cbn [CHAT_HISTORY addLog].
    destruct (generate S _) as [response|e]; [|exact Hinv].
    destruct (Js.truthy_opt response); [exact Hinv|]. now apply Hins.
  - rewrite (afterRetrieval_unauthenticated S input refined docs _ Hauth).
    cbn [CHAT_HISTORY addLog].
    destruct (generate S _) as [response|e]; cbn [fst CHAT_HISTORY].
    + apply Hins. now apply Hins.
    + now apply Hins.
Qed.

Lemma conversations_stay_nonempty_witness :
  noEmptyConversation
    (Flow.autonomousAIFlow helloServices (guest "Hello" "c1") freshState).1.
Proof.
  apply (conversations_stay_nonempty helloServices (guest "Hello" "c1") freshState).
  intros id turns H. cbn in H. rewrite lookup_empty in H. discriminate.
Defined.

(** X20.  The flow of the version without sign-in does what the
    current flow does for a request without a user identifier: same
    result, same state. *)
Theorem guest_flow_is_unauthenticated_path (S : Services) (text id : string) (st : State) :
  GuestFlow.autonomousAIFlow S
    {| GuestFlow.input_text := text; GuestFlow.chatroomId := id |} st
  = Flow.autonomousAIFlow S
      {| Flow.input_text := text; Flow.chatroomId := id; Flow.userId := None |} st.
Proof. reflexivity. Qed.

(** X21.  The calls of a request come in one order: grammar,
    classification, at most one search, generation; a request stops
    after any of them but never skips ahead, repeats a call or
    searches a second table. *)
Theorem calls_follow_the_stages (S : Services) (input : Flow.Input) (st : State) :
  exists calls,
    log (Flow.autonomousAIFlow S input st).1 = (log st ++ calls)%list /\
    In (map kindOf calls)
       [ [GrammarCall];
         [GrammarCall; ClassifierCall];
         [GrammarCall; ClassifierCall; SearchCall];
         [GrammarCall; ClassifierCall; GenerationCall];
         [GrammarCall; ClassifierCall; SearchCall; GenerationCall] ].
Proof.
  rewrite flow_stages.
  assert (Hstages :
    match (retrievalStages S (Flow.input_text input)).2 with
    | Throws _ =>
        In (map kindOf (retrievalStages S (Flow.input_text input)).1)
           [ [GrammarCall]; [GrammarCall; ClassifierCall];
             [GrammarCall; ClassifierCall; SearchCall] ]
    | Returns _ =>
        In (map kindOf (retrievalStages S (Flow.input_text input)).1)
           [ [GrammarCall; ClassifierCall]; [GrammarCall; ClassifierCall; SearchCall] ]
    end).
  { unfold retrievalStages.
    destruct (generate S (grammarRequest _)) as [g|e]; [|cbn; auto].
    destruct (generate S (classifierRequest _)) as [c|e]; [|cbn; auto].
    destruct (Flow.retrieverOfDocumentType _) as [r|]; [|cbn; auto].
    destruct (Retriever.search S _ _ _); cbn; auto. }
  destruct (retrievalStages S (Flow.input_text input)) as [events [[refined docs]|e']];
    cbn [fst snd] in Hstages.
  - destruct (afterRetrieval_asks S input refined docs (addLog st events))
      as (history & Hlog & _).
    exists (events ++ [Generated (assistantRequest input refined docs history)])%list.
    split; [rewrite Hlog; cbn [log addLog]; now rewrite app_assoc|].
    rewrite map_app. cbn [map kindOf req_system assistantRequest].
    cbn in Hstages.
    destruct Hstages as [<- | [<- | []]]; cbn; repeat ((left; reflexivity) || right).
  - exists events. split; [reflexivity|]. cbn in Hstages |- *. tauto.
Qed.

(** ** Operations of the chat store *)

(** Runs an operation of the chat store along every pattern of failing
    queries and of look-up results. *)
Ltac run_store S :=
  unfold ChatService.addMessage, ChatServiceMore.deleteChat,
    ChatService.createChat, ChatService.getChatById,
    ChatService.Database_query, ChatService.get_database, ChatService.set_database,
    tryCatch, bind, ret, throw;
  cbn [fst snd database chats messages queries];
  repeat (match goal with
          | |- context [dbFault S ?n] => destruct (dbFault S n) eqn:?;
                                         cbn [fst snd database chats messages queries]
          | |- context [match List.find ?f ?l with _ => _ end] =>
              destruct (List.find f l) eqn:?;
              cbn [fst snd database chats messages queries]
          end).

Lemma deleteChat_cases (S : Services) (chatId uid : string) (st : State) :
  match (ChatServiceMore.deleteChat S chatId uid st).2 with
  | Returns _ =>
      database (ChatServiceMore.deleteChat S chatId uid st).1 =
        {| chats := List.filter (fun c => negb (ChatServiceMore.sameChat chatId c))
                      (chats (database st));
           messages := List.filter (fun m => negb (ChatServiceMore.inChat chatId m))
                         (messages (database st)) |} /\
      exists c, List.find (ownedBy chatId uid) (chats (database st)) = Some c
  | Throws _ =>
      database (ChatServiceMore.deleteChat S chatId uid st).1 = database st
  end.
Proof.
  fold (ownedBy chatId uid). run_store S; try reflexivity; try (now destruct (database st)).
  split; [reflexivity | eauto].
Qed.

(** X22.  [getChatById] only reads: the tables are as before.  The
    chat it returns is a row of [chats] with the identifier and the
    owner asked for; when it returns none, no row has both. *)
Theorem getChatById_checks_owner (S : Services) (chatId uid : string) (st : State) :
  database (ChatService.getChatById S chatId uid st).1 = database st /\
  match (ChatService.getChatById S chatId uid st).2 with
  | Returns (Some c) =>
      In c (chats (database st)) /\ chat_id c = chatId /\ chat_user_id c = uid
  | Returns None =>
      Forall (fun c => ~ (chat_id c = chatId /\ chat_user_id c = uid)) (chats (database st))
  | Throws _ => dbFault S (queries st) = true
  end.
Proof.
  rewrite getChatById_run. cbn [fst snd]. split; [reflexivity|].
  destruct (dbFault S (queries st)); [reflexivity|].
  destruct (List.find _ _) as [c|] eqn:Hfind.
  - now apply find_ownedBy in Hfind.
  - apply List.Forall_forall. intros c Hin [H1 H2].
    pose proof (find_none _ _ Hfind c Hin) as Hc. unfold ownedBy in Hc.
    rewrite <- H1, <- H2, !String.eqb_refl in Hc. discriminate.
Qed.

(** X23.  [addMessage] is all or nothing: when it returns, the chat is
    the user's and exactly the returned row, with the given chat,
    sender and content, has been added at the end of [messages]; when
    it throws, at whichever query, the tables are as before. *)
Theorem addMessage_all_or_nothing (S : Services) (chatId uid content : string)
    (sender : Role) (st : State) :
  match (ChatService.addMessage S chatId uid content sender st).2 with
  | Returns m =>
      rowView m = (chatId, sender, content) /\
      database (ChatService.addMessage S chatId uid content sender st).1 =
        {| chats := chats (database st); messages := messages (database st) ++ [m] |} /\
      exists c, List.find (ownedBy chatId uid) (chats (database st)) = Some c
  | Throws _ =>
      database (ChatService.addMessage S chatId uid content sender st).1 = database st
  end.
Proof.
  fold (ownedBy chatId uid). run_store S; try reflexivity; try (now destruct (database st)).
  repeat split. eauto.
Qed.

(** X24.  Adding a message to a chat that is not the user's, or that
    does not exist, throws after the single look-up query, with "Chat
    not found or access denied" when the look-up itself succeeds, and
    writes nothing. *)
Theorem addMessage_rejects_foreign_chat (S : Services) (chatId uid content : string)
    (sender : Role) (st : State) :
  Forall (fun c => ~ (chat_id c = chatId /\ chat_user_id c = uid)) (chats (database st)) ->
  exists e,
    ChatService.addMessage S chatId uid content sender st = (afterQuery st, Throws e) /\
    (dbFault S (queries st) = false -> e = "Chat not found or access denied").
Proof.
  intros Hnone.
  assert (Hfind : List.find (ownedBy chatId uid) (chats (database st)) = None).
  { destruct (List.find _ _) as [c|] eqn:E; [|reflexivity].
    apply find_ownedBy in E as (Hin & H1 & H2).
    rewrite List.Forall_forall in Hnone. now destruct (Hnone c Hin). }
  rewrite (addMessage_missing S chatId uid content sender st Hfind).
  eexists. split; [reflexivity|]. now intros ->.
Qed.

Lemma addMessage_rejects_foreign_chat_witness :
  exists e,
    ChatService.addMessage theftServices "c1" "u2" "hello" user (memberState "c1" "u1")
      = (afterQuery (memberState "c1" "u1"), Throws e) /\
    (dbFault theftServices (queries (memberState "c1" "u1")) = false ->
     e = "Chat not found or access denied").
Proof.
  apply (addMessage_rejects_foreign_chat theftServices "c1" "u2" "hello" user
           (memberState "c1" "u1")).
  repeat constructor. cbn. intros [_ H]. discriminate.
Defined.

(** X25.  A chat that has just been created is found again by its
    owner under the identifier the database gave it, and by nobody
    else, provided the two queries succeed and the identifier is new
    to the table. *)
Theorem createChat_then_getChatById (S : Services) (uid : string) (title : option string)
    (st : State) :
  dbFault S (queries st) = false ->
  dbFault S (Datatypes.S (queries st)) = false ->
  Forall (fun c => chat_id c <> newId S (queries st)) (chats (database st)) ->
  exists chat st1,
    ChatService.createChat S uid title st = (st1, Returns chat) /\
    chat_user_id chat = uid /\
    (ChatService.getChatById S (chat_id chat) uid st1).2 = Returns (Some chat) /\
    forall other, other <> uid ->
      (ChatService.getChatById S (chat_id chat) other st1).2 = Returns None.
Proof.
  intros F1 F2 Hfresh. rewrite createChat_run, F1. cbn zeta.
  eexists. eexists. split; [reflexivity|]. split; [reflexivity|].
  assert (Hold : forall who,
            List.find (ownedBy (newId S (queries st)) who) (chats (database st)) = None).
  { intros who. destruct (List.find _ _) as [c|] eqn:E; [|reflexivity].
    apply find_ownedBy in E as (Hin & H1 & _).
    rewrite List.Forall_forall in Hfresh. now destruct (Hfresh c Hin). }
  assert (Hfind : forall who l, List.find (ownedBy (newId S (queries st)) who) l = None ->
            forall c, List.find (ownedBy (newId S (queries st)) who) (l ++ [c]) =
                      if ownedBy (newId S (queries st)) who c then Some c else None).
  { intros who l Hl c. induction l as [|x l IH]; cbn in *; [reflexivity|].
    destruct (ownedBy _ who x); [discriminate | now apply IH]. }
  split.
  - rewrite getChatById_run. cbn [snd queries database chats chat_id]. rewrite F2.
    rewrite (Hfind uid _ (Hold uid)). unfold ownedBy. cbn [chat_id chat_user_id].
    now rewrite !String.eqb_refl.
  - intros other Hne. rewrite getChatById_run. cbn [snd queries database chats chat_id].
    rewrite F2, (Hfind other _ (Hold other)). unfold ownedBy. cbn [chat_id chat_user_id].
    rewrite String.eqb_refl. cbn. apply String.eqb_neq in Hne.
    rewrite String.eqb_sym. now rewrite Hne.
Qed.

Lemma createChat_then_getChatById_witness :
  exists chat st1,
    ChatService.createChat theftServices "u1" (Some "Theft...") newcomerState
      = (st1, Returns chat) /\
    chat_user_id chat = "u1" /\
    (ChatService.getChatById theftServices (chat_id chat) "u1" st1).2 = Returns (Some chat) /\
    forall other, other <> "u1" ->
      (ChatService.getChatById theftServices (chat_id chat) other st1).2 = Returns None.
Proof.
  apply (createChat_then_getChatById theftServices "u1" (Some "Theft...") newcomerState).
  - reflexivity.
  - reflexivity.
  - constructor.
Defined.

(** X26.  [deleteChat] is all or nothing: when it returns, the chat
    was the user's, every chat of that identifier and every message
    under it are gone and all other rows are kept in their order; when
    it throws, the tables are as before. *)
Theorem deleteChat_all_or_nothing (S : Services) (chatId uid : string) (st : State) :
  let st' := (ChatServiceMore.deleteChat S chatId uid st).1 in
  match (ChatServiceMore.deleteChat S chatId uid st).2 with
  | Returns _ =>
      (exists c, In c (chats (database st)) /\ chat_id c = chatId /\ chat_user_id c = uid) /\
      (forall c, In c (chats (database st')) <->
                 In c (chats (database st)) /\ chat_id c <> chatId) /\
      (forall m, In m (messages (database st')) <->
                 In m (messages (database st)) /\ message_chat_id m <> chatId) /\
      chats (database st') `sublist_of` chats (database st) /\
      messages (database st') `sublist_of` messages (database st)
  | Throws _ => database st' = database st
  end.
Proof.
  intros st'. unfold st'. clear st'.
  pose proof (deleteChat_cases S chatId uid st) as H.
  destruct (ChatServiceMore.deleteChat S chatId uid st) as [st' [[]|e]]; cbn [fst snd] in *;
    [|exact H].
  destruct H as (-> & c & Hfind). cbn [chats messages].
  split; [exists c; now apply find_ownedBy in Hfind|].
  split; [|split; [|split; apply filter_sublist]].
  - intros x. rewrite filter_In. unfold ChatServiceMore.sameChat.
    rewrite negb_true_iff, String.eqb_neq. tauto.
  - intros m. rewrite filter_In. unfold ChatServiceMore.inChat.
    rewrite negb_true_iff, String.eqb_neq. tauto.
Qed.

(** ** The list of conversations ([index.ts]) *)

Lemma summary_snoc (turns : list ChatInterface) (t : ChatInterface) :
  Conversations.summary (turns ++ [t]) =
  {| Flow.entry_role := role t;
     Flow.entry_content := Js.join " " (map text (content t)) |}.
Proof. unfold Conversations.summary. now rewrite last_snoc. Qed.

Lemma listed_iff (st : State) (id : string) (message : Flow.HistoryEntry) :
  In {| Conversations.entry_chatroomId := id; Conversations.lastMessage := message |}
     (map (fun kv => {| Conversations.entry_chatroomId := kv.1;
                        Conversations.lastMessage := Conversations.summary kv.2 |})
          (map_to_list (CHAT_HISTORY st)))
  <-> exists turns, CHAT_HISTORY st !! id = Some turns /\
                    message = Conversations.summary turns.
Proof.
  rewrite in_map_iff. split.
  - intros ([id' turns] & Heq & Hkv). cbn [fst snd] in Heq.
    injection Heq as Hid Hmessage. subst id' message.
    exists turns. split; [|reflexivity].
    now apply list_elem_of_In, elem_of_map_to_list in Hkv.
  - intros (turns & Hturns & ->). exists (id, turns). split; [reflexivity|].
    now apply list_elem_of_In, elem_of_map_to_list.
Qed.

(** X27.  [getConversationList] only reads.  It lists every
    conversation of the in-memory table exactly once, under its
    identifier, with the last turn of the conversation; when no
    conversation is empty, each entry shows what [getChatHistory] shows
    last for that conversation, so the empty user message that stands
    for a conversation without turns is never made up. *)
Theorem conversation_list_shows_last_turns (st : State) :
  exists entries,
    Conversations.getConversationList st = (st, Returns entries) /\
    NoDup (map Conversations.entry_chatroomId entries) /\
    (forall id message,
       In {| Conversations.entry_chatroomId := id; Conversations.lastMessage := message |}
          entries
       <-> exists turns, CHAT_HISTORY st !! id = Some turns /\
                         message = Conversations.summary turns) /\
    (noEmptyConversation st ->
     Forall (fun e => last (historyOf (Conversations.entry_chatroomId e) st)
                      = Some (Conversations.lastMessage e))
            entries).
Proof.
  eexists. split; [reflexivity|].
  split; [|split; [apply listed_iff|]].
  - rewrite map_map. cbn [Conversations.entry_chatroomId].
    apply (NoDup_fst_map_to_list (CHAT_HISTORY st)).
  - intros Hinv. apply List.Forall_forall. intros [id message] He.
    apply listed_iff in He as (turns & Hturns & ->).
    cbn [Conversations.entry_chatroomId Conversations.lastMessage].
    unfold historyOf, Flow.getChatHistory, history_get, bind, ret. cbn [fst snd].
    rewrite Hturns, default_Some.
    destruct (last turns) as [t|] eqn:Hlast.
    + apply last_Some in Hlast as [turns' ->]. rewrite summary_snoc, map_app.
      cbn [map]. now rewrite last_snoc.
    + apply last_None in Hlast. now destruct (Hinv id turns Hturns).
Qed.

(** X28.  After a request on the unauthenticated path has returned,
    the list of conversations shows that conversation with the model's
    turn as its last message: the model's text, and the empty string
    when the caller was given the fixed sentence for an empty text. *)
Theorem guest_request_is_listed (S : Services) (input : Flow.Input) (st st' : State)
    (out : string) :
  Flow.authenticated input = false ->
  Flow.autonomousAIFlow S input st = (st', Returns out) ->
  exists reply entries,
    out = Js.opt_or_else reply "No response generated." /\
    (Conversations.getConversationList st').2 = Returns entries /\
    In {| Conversations.entry_chatroomId := Flow.chatroomId input;
          Conversations.lastMessage :=
            {| Flow.entry_role := model; Flow.entry_content := Js.opt_or_else reply "" |} |}
       entries.
Proof.
  intros Hauth. rewrite flow_stages.
  destruct (retrievalStages S (Flow.input_text input)) as [events [[refined docs]|e']];
    [|discriminate].
  rewrite (afterRetrieval_unauthenticated S input refined docs _ Hauth).
  destruct (generate S _) as [reply|e]; [|discriminate].
  intros [= <- <-]. exists reply. eexists. split; [reflexivity|]. split; [reflexivity|].
  apply listed_iff. eexists. split; [apply lookup_insert_eq|].
  now rewrite summary_snoc.
Qed.

Lemma guest_request_is_listed_witness :
  exists reply entries,
    "No response generated." = Js.opt_or_else reply "No response generated." /\
    (Conversations.getConversationList
       (Flow.autonomousAIFlow generationSilent (guest "what is theft" "c1") freshState).1).2
      = Returns entries /\
    In {| Conversations.entry_chatroomId := Flow.chatroomId (guest "what is theft" "c1");
          Conversations.lastMessage :=
            {| Flow.entry_role := model; Flow.entry_content := Js.opt_or_else reply "" |} |}
       entries.
Proof.
  apply (guest_request_is_listed generationSilent (guest "what is theft" "c1") freshState
           (Flow.autonomousAIFlow generationSilent (guest "what is theft" "c1") freshState).1
           "No response generated.").
  - reflexivity.
  - vm_compute. reflexivity.
Defined.

(** ** The description of a part ([tools/constitution.ts]) *)
Section ConstitutionFacts.
Import Js Constitution.
#[local] Arguments String.append !s1 s2 : simpl nomatch.

Lemma Forall_of_forallb {A} (p : A -> bool) (P : A -> Prop) (l : list A) :
  (forall x, p x = true -> P x) -> forallb p l = true -> Forall P l.
Proof.
  intros HP. induction l as [|x l IH]; cbn [forallb]; [constructor|].
  intros [Hx Hl]%andb_true_iff. constructor; [now apply HP | now apply IH].
Qed.

Lemma splitOnSpace_nonempty (s : string) : splitOnSpace s <> [].
Proof.
  induction s as [|c s IH]; cbn; [discriminate|].
  destruct (Ascii.eqb c " "); [discriminate|]. now destruct (splitOnSpace s).
Qed.

Lemma join_cons (c : ascii) (piece : string) (pieces : list string) :
  join " " (String c piece :: pieces) = String c (join " " (piece :: pieces)).
Proof. destruct pieces; reflexivity. Qed.

(** Joining the pieces with spaces gives the string back. *)
Lemma join_splitOnSpace (s : string) : join " " (splitOnSpace s) = s.
Proof.
  induction s as [|c s IH]; [reflexivity|]. cbn [splitOnSpace].
  pose proof (splitOnSpace_nonempty s) as Hne.
  destruct (Ascii.eqb c " ") eqn:E.
  - apply Ascii.eqb_eq in E as ->.
    destruct (splitOnSpace s) as [|p ps] eqn:Es; [contradiction|].
    change (join " " ("" :: p :: ps)) with ("" +:+ " " +:+ join " " (p :: ps)).
    now rewrite IH.
  - destruct (splitOnSpace s) as [|p ps] eqn:Es; [contradiction|].
    now rewrite join_cons, IH.
Qed.

(** The first piece of [word], a space and [rest] is [word] when
    [word] has no space; the other pieces are those of [rest]. *)
Lemma splitOnSpace_first (word rest : string) :
  includes word " " = false ->
  splitOnSpace (word +:+ " " +:+ rest) = word :: splitOnSpace rest.
Proof.
  induction word as [|c word IH]; intros Hw; [reflexivity|].
  cbn [includes] in Hw. apply orb_false_iff in Hw as [Hc Hw].
  assert (Hspace : Ascii.eqb c " " = false).
  { rewrite Ascii.eqb_sym.
    change (Ascii.eqb " " c && startsWith word "" = false) in Hc.
    now destruct (Ascii.eqb " " c), word. }
  change (String c word +:+ " " +:+ rest) with (String c (word +:+ " " +:+ rest)).
  cbn [splitOnSpace]. now rewrite Hspace, (IH Hw).
Qed.

End ConstitutionFacts.

(** X29.  For a part title in which no title of the fallback table
    occurs, [getPartDescription] answers with the sentence
    "Constitutional provisions related to" followed by the part title
    without its first word. *)
Theorem unknown_part_description (number rest : string) :
  Js.includes number " " = false ->
  Forall (fun part =>
            Js.includes (Js.toLowerCase (number +:+ " " +:+ rest))
              (Js.toLowerCase (Constitution.title part)) = false)
    Constitution.FALLBACK_TOC ->
  Constitution.getPartDescription (number +:+ " " +:+ rest)
  = "Constitutional provisions related to " +:+ rest.
Proof.
  intros Hnumber Hnone. unfold Constitution.getPartDescription. cbn zeta.
  assert (Hfind : List.find
            (fun part => Js.includes (Js.toLowerCase (number +:+ " " +:+ rest))
                           (Js.toLowerCase (Constitution.title part)))
            Constitution.FALLBACK_TOC = None).
  { destruct (List.find _ _) as [part|] eqn:E; [|reflexivity].
    apply find_some in E as [Hin E]. rewrite List.Forall_forall in Hnone.
    rewrite (Hnone part Hin) in E. discriminate. }
  rewrite Hfind. cbn [Js.opt_or_else].
  rewrite (splitOnSpace_first number rest Hnumber). cbn [List.tl].
  now rewrite join_splitOnSpace.
Qed.

Lemma unknown_part_description_witness :
  Constitution.getPartDescription ("Part-36" +:+ " " +:+ "Digital Rights")
  = "Constitutional provisions related to " +:+ "Digital Rights".
Proof.
  apply (unknown_part_description "Part-36" "Digital Rights").
  - reflexivity.
  - apply (Forall_of_forallb
             (fun part => negb (Js.includes (Js.toLowerCase "Part-36 Digital Rights")
                                  (Js.toLowerCase (Constitution.title part))))).
    + intros part. now destruct (Js.includes _ _).
    + vm_compute. reflexivity.
Defined.

(** X30.  [getPartDescription] never answers with the empty string,
    and for each of the thirty-five parts of the fallback table, given
    the part title as the database stores it (number, space, title), it
    answers with the description of that very part: no earlier title
    of the table occurs in a later one. *)
Theorem part_description_found :
  (forall partTitle, Constitution.getPartDescription partTitle <> "") /\
  length Constitution.FALLBACK_TOC = 35 /\
  Forall (fun part =>
            Some (Constitution.getPartDescription
                    (Constitution.partNumber part +:+ " " +:+ Constitution.title part))
            = Constitution.description part)
    Constitution.FALLBACK_TOC.
Proof.
  split; [|split; [reflexivity|]].
  - intros partTitle. unfold Constitution.getPartDescription. cbn zeta.
    apply opt_or_else_nonempty. discriminate.
  - apply (Forall_of_forallb
             (fun part =>
                match Constitution.description part with
                | Some about =>
                    String.eqb
                      (Constitution.getPartDescription
                         (Constitution.partNumber part +:+ " " +:+ Constitution.title part))
                      about
                | None => false
                end)).
    + intros part. destruct (Constitution.description part) as [about|]; [|discriminate].
      now intros ->%String.eqb_eq.
    + vm_compute. reflexivity.
Qed.
